(** * Marketplace API: the catalog handlers of [main.py]

    A shallow embedding of the four request handlers of [src/main.py]
    ([test_database], [seed_products], [list_products],
    [featured_products]) over a model of the document store they talk to.

    Conventions.
    - The text of a Python [str] is a [text]: a sequence of characters,
      each its Unicode code point.  A literal is written as in the source
      and read as UTF-8.  Names that the handlers only compare as a whole
      (dict keys, collection names, environment variables) are [string]s.
    - A Python [float] that carries a price or a rating is a rational [Q];
      [float(x)] is the identity on it.
    - A Python [dict] / BSON document is an association list in insertion
      order, with the key-update and key-removal operations of [dict].
    - The module-level handle [db], the process environment and the server
      behind the handle form the [world] every handler runs in.
    - How the server's regular-expression engine compares two characters
      when letter case is to be ignored is a parameter, [casefold], of the
      development; comparisons within ASCII do not depend on it. *)

From Stdlib Require Import String Ascii List ZArith QArith Bool Lia.
From Stdlib Require Import DecimalString.
From Stdlib.Strings Require Import Byte.
From stdpp Require Import gmap strings list.

Local Open Scope string_scope.
Local Open Scope list_scope.

(** ** Text *)

Inductive text : Type :=
| TNil
| TCons (c : N) (rest : text).

(** Is [b] a continuation byte of UTF-8? *)
Definition continues (b : N) : bool := (128 <=? b)%N && (b <? 192)%N.

(** The characters a sequence of UTF-8 bytes stands for. *)
Fixpoint decode_utf8 (bs : list N) : option text :=
  match bs with
  | [] => Some TNil
  | b0 :: r0 =>
      if (b0 <? 128)%N then option_map (TCons b0) (decode_utf8 r0)
      else if (192 <=? b0)%N && (b0 <? 224)%N then
        match r0 with
        | b1 :: r1 =>
            if continues b1
            then option_map (TCons ((b0 - 192) * 64 + (b1 - 128))%N)
                   (decode_utf8 r1)
            else None
        | _ => None
        end
      else if (224 <=? b0)%N && (b0 <? 240)%N then
        match r0 with
        | b1 :: b2 :: r2 =>
            if continues b1 && continues b2
            then option_map
                   (TCons ((b0 - 224) * 4096 + (b1 - 128) * 64 + (b2 - 128))%N)
                   (decode_utf8 r2)
            else None
        | _ => None
        end
      else if (240 <=? b0)%N && (b0 <? 248)%N then
        match r0 with
        | b1 :: b2 :: b3 :: r3 =>
            if continues b1 && continues b2 && continues b3
            then option_map
                   (TCons ((b0 - 240) * 262144 + (b1 - 128) * 4096
                           + (b2 - 128) * 64 + (b3 - 128))%N)
                   (decode_utf8 r3)
            else None
        | _ => None
        end
      else None
  end.

(** The UTF-8 bytes of one character. *)
Definition encode_char (c : N) : list N :=
  if (c <? 128)%N then [c]
  else if (c <? 2048)%N then [192 + c / 64; 128 + c mod 64]%N
  else if (c <? 65536)%N then
    [224 + c / 4096; 128 + (c / 64) mod 64; 128 + c mod 64]%N
  else [240 + c / 262144; 128 + (c / 4096) mod 64; 128 + (c / 64) mod 64;
        128 + c mod 64]%N.

Fixpoint encode_utf8 (t : text) : list N :=
  match t with
  | TNil => []
  | TCons c rest => encode_char c ++ encode_utf8 rest
  end.

Definition text_of_bytes (bs : list byte) : option text :=
  decode_utf8 (map Byte.to_N bs).

Definition bytes_of_text (t : text) : option (list byte) :=
  Some (map (fun n => default Byte.x00 (Byte.of_N n)) (encode_utf8 t)).

Declare Scope text_scope.
Delimit Scope text_scope with text.
Bind Scope text_scope with text.
String Notation text text_of_bytes bytes_of_text : text_scope.

(** The text of a [string] of UTF-8 bytes; empty when they are not UTF-8. *)
Definition text_of_string (s : string) : text :=
  default TNil (text_of_bytes (list_byte_of_string s)).

(** [s + t] *)
Fixpoint text_app (s t : text) : text :=
  match s with
  | TNil => t
  | TCons c rest => TCons c (text_app rest t)
  end.

Infix "++" := text_app : text_scope.

(** [len(s)] *)
Fixpoint text_length (s : text) : nat :=
  match s with
  | TNil => 0
  | TCons _ rest => S (text_length rest)
  end.

(** [s == t] *)
Fixpoint text_eqb (s t : text) : bool :=
  match s, t with
  | TNil, TNil => true
  | TCons a s', TCons b t' => N.eqb a b && text_eqb s' t'
  | _, _ => false
  end.

(** [s[:n]]: the first [n] characters, all of [s] when it has fewer. *)
Fixpoint slice_to (n : nat) (s : text) : text :=
  match n, s with
  | S n', TCons c rest => TCons c (slice_to n' rest)
  | _, _ => TNil
  end.

(** The characters of a text, as a list. *)
Fixpoint chars (s : text) : list N :=
  match s with
  | TNil => []
  | TCons c rest => c :: chars rest
  end.

(** ** BSON values and documents *)

#[warnings="-register-all"]
Inductive bson : Type :=
| BNull
| BBool (b : bool)
| BNum (x : Q)
| BStr (s : text)
| BOid (n : N)
| BArr (items : list bson)
| BDoc (fields : list (string * bson)).

(** A Python dict with string keys. *)
Abbreviation dict := (list (string * bson)).

(** [d.get(k)] *)
Fixpoint dget (k : string) (d : dict) : option bson :=
  match d with
  | [] => None
  | (k', v) :: rest => if String.eqb k' k then Some v else dget k rest
  end.

(** [d[k] = v]: an existing key keeps its position, a new key goes last. *)
Fixpoint dset (k : string) (v : bson) (d : dict) : dict :=
  match d with
  | [] => [(k, v)]
  | (k', v') :: rest =>
      if String.eqb k' k then (k', v) :: rest else (k', v') :: dset k v rest
  end.

(** [d.pop(k, None)], the popped value dropped. *)
Fixpoint dpop (k : string) (d : dict) : dict :=
  match d with
  | [] => []
  | (k', v) :: rest =>
      if String.eqb k' k then dpop k rest else (k', v) :: dpop k rest
  end.

(** Equality of BSON values as the server compares them: numbers by value,
    everything else structurally. *)
Fixpoint bson_eqb (a b : bson) {struct a} : bool :=
  match a, b with
  | BNull, BNull => true
  | BBool x, BBool y => Bool.eqb x y
  | BNum x, BNum y => Qeq_bool x y
  | BStr x, BStr y => text_eqb x y
  | BOid x, BOid y => N.eqb x y
  | BArr xs, BArr ys =>
      (fix all2 (xs ys : list bson) {struct xs} : bool :=
         match xs, ys with
         | [], [] => true
         | x :: xs', y :: ys' => bson_eqb x y && all2 xs' ys'
         | _, _ => false
         end) xs ys
  | BDoc xs, BDoc ys =>
      (fix all2 (xs ys : list (string * bson)) {struct xs} : bool :=
         match xs, ys with
         | [], [] => true
         | (k, x) :: xs', (k', y) :: ys' =>
             String.eqb k k' && bson_eqb x y && all2 xs' ys'
         | _, _ => false
         end) xs ys
  | _, _ => false
  end.

(** ** Exceptions and the handler monad *)

Inductive exn : Type :=
| HTTPException (status_code : Z) (detail : text)
| Exception (msg : text).

(** [str(e)] *)
Definition str (e : exn) : text :=
  match e with
  | HTTPException code detail =>
      (text_of_string (NilZero.string_of_int (Z.to_int code)) ++ ": " ++ detail)%text
  | Exception msg => msg
  end.

Inductive outcome (A : Type) : Type :=
| Ok (a : A)
| Raise (e : exn)
| OutsideModel.

Arguments Ok {A} a.
Arguments Raise {A} e.
Arguments OutsideModel {A}.

(** A computation over a state [S] that returns, raises, or leaves the
    modelled fragment of the query language. *)
Definition prog (S A : Type) : Type := S -> outcome A * S.

Definition ret {S A} (a : A) : prog S A := fun s => (Ok a, s).

Definition bind {S A B} (c : prog S A) (k : A -> prog S B) : prog S B :=
  fun s =>
    match c s with
    | (Ok a, s') => k a s'
    | (Raise e, s') => (Raise e, s')
    | (OutsideModel, s') => (OutsideModel, s')
    end.

Definition raise {S A} (e : exn) : prog S A := fun s => (Raise e, s).

(** [try: c  except Exception as e: h e] *)
Definition try_except {S A} (c : prog S A) (h : exn -> prog S A) : prog S A :=
  fun s =>
    match c s with
    | (Raise e, s') => h e s'
    | r => r
    end.

Definition get {S} : prog S S := fun s => (Ok s, s).
Definition modify {S} (f : S -> S) : prog S unit := fun s => (Ok tt, f s).

Declare Scope prog_scope.
Delimit Scope prog_scope with prog.
Notation "'let*' x ':=' c 'in' k" := (bind c (fun x => k))
  (at level 10, x pattern, c at level 100, k at level 200) : prog_scope.
Notation "c ';;;' k" := (bind c (fun _ => k))
  (at level 100, k at level 200, right associativity) : prog_scope.
Local Open Scope prog_scope.

(** [for x in xs: body x] *)
Fixpoint for_each {S A} (xs : list A) (body : A -> prog S unit) : prog S unit :=
  match xs with
  | [] => ret tt
  | x :: rest => body x ;;; for_each rest body
  end.

(** ** The world a handler runs in *)

(** What reading an attribute of an object can do: the attribute is
    missing ([hasattr] is false), it has a value, or reading it raises. *)
Inductive attr : Type :=
| NoAttr
| Attr (s : text)
| AttrRaises (e : text).

(** The database behind the handle.  [db_fault = Some e] is a server that
    answers every round trip with the exception [e]. *)
Record database : Type := {
  db_name : attr;
  db_fault : option text;
  db_next_id : N;
  db_collections : gmap string (list dict)
}.

(** The round trips a handler makes to the server. *)
Inductive store_op : Type :=
| CountDocuments (coll : string) (flt : dict)
| InsertOne (coll : string) (doc : dict)
| Find (coll : string) (flt : dict) (limit : option nat)
| ListCollectionNames.

Record world : Type := {
  db : option database;
  environ : gmap string text;
  calls : list store_op
}.

Definition collection (d : database) (coll : string) : list dict :=
  default [] (db_collections d !! coll).

Definition set_collection (coll : string) (docs : list dict) (d : database)
    : database :=
  {| db_name := db_name d;
     db_fault := db_fault d;
     db_next_id := db_next_id d;
     db_collections := <[coll := docs]> (db_collections d) |}.

Definition bump_id (d : database) : database :=
  {| db_name := db_name d;
     db_fault := db_fault d;
     db_next_id := N.succ (db_next_id d);
     db_collections := db_collections d |}.

(** ** Regular expressions: the fragment the model covers

    The server hands the text of [$regex] to its regular-expression
    engine.  The model covers the patterns built from ordinary characters
    and the wildcard [.]; a pattern that uses any other operator lies
    outside it, and [parse_regex] answers [None] there. *)

(** An engine that folds no letter outside ASCII, and one that also knows
    the letter e with an acute accent in its two cases. *)
Definition ascii_only (x c : N) : bool := false.

Definition e_acute (x c : N) : bool :=
  (N.eqb x 201 && N.eqb c 233) || (N.eqb x 233 && N.eqb c 201).

Section Engine.

(** The engine's ruling on whether two characters are the same letter when
    case is ignored, asked for two different characters of which at least
    one lies outside ASCII. *)
Variable casefold : N -> N -> bool.

Inductive atom : Type :=
| Lit (c : N)
| AnyChar.

(** The characters that start an operator of the pattern language. *)
Definition metachars : list N := chars "\^$.|?*+()[{".

Definition is_metachar (c : N) : bool :=
  existsb (N.eqb c) metachars.

Fixpoint parse_regex (p : text) : option (list atom) :=
  match p with
  | TNil => Some []
  | TCons c rest =>
      match parse_regex rest with
      | None => None
      | Some atoms =>
          if N.eqb c 46 (* the character [.] *) then Some (AnyChar :: atoms)
          else if is_metachar c then None
          else Some (Lit c :: atoms)
      end
  end.

Definition is_ascii (c : N) : bool := (c <? 128)%N.

(** Case folding within ASCII. *)
Definition lower (c : N) : N :=
  if (65 <=? c)%N && (c <=? 90)%N then (c + 32)%N else c.

(** Are [x] and [c] the same letter, case aside?  A character is itself;
    within ASCII the letters A-Z fold onto a-z; otherwise the engine
    rules. *)
Definition caseless (x c : N) : bool :=
  N.eqb x c ||
  (if is_ascii x && is_ascii c then N.eqb (lower x) (lower c)
   else casefold x c).

Definition newline : N := 10.

Definition atom_matches (ignore_case : bool) (a : atom) (c : N) : bool :=
  match a with
  | Lit x => if ignore_case then caseless x c else N.eqb x c
  | AnyChar => negb (N.eqb c newline)
  end.

(** The pattern matches a prefix of the subject. *)
Fixpoint match_here (ignore_case : bool) (p : list atom) (s : text) : bool :=
  match p, s with
  | [], _ => true
  | _ :: _, TNil => false
  | a :: p', TCons c s' =>
      atom_matches ignore_case a c && match_here ignore_case p' s'
  end.

(** The pattern matches somewhere in the subject (a search is
    unanchored). *)
Fixpoint regex_search (ignore_case : bool) (p : list atom) (s : text) : bool :=
  match_here ignore_case p s ||
  match s with
  | TNil => false
  | TCons _ s' => regex_search ignore_case p s'
  end.

(** [$options]: the model knows the empty option string and [i]. *)
Definition parse_options (o : text) : option bool :=
  if text_eqb o "" then Some false
  else if text_eqb o "i" then Some true
  else None.

(** ** Queries

    A query is itself a document.  The server reads it first, and answers
    with an error when it cannot, whatever the collection holds; then it
    tries each document against what it read.  The model covers what the
    handlers send: equality on a field, the operators [$gte], [$lte],
    [$in] and [$regex] with [$options], and a top-level [$or].  [compile]
    reads a query into a predicate on documents; [None] means that the
    query lies outside this fragment. *)

(** The values a clause on a field is tried against: the field's value,
    and, when that is an array, each of its elements.  A missing field
    compares as null. *)
Definition candidates (fv : option bson) : list bson :=
  match fv with
  | None => [BNull]
  | Some (BArr items) => BArr items :: items
  | Some v => [v]
  end.

Definition num_ge (x : Q) (v : bson) : bool :=
  match v with BNum p => Qle_bool x p | _ => false end.

Definition num_le (x : Q) (v : bson) : bool :=
  match v with BNum p => Qle_bool p x | _ => false end.

Definition str_search (ignore_case : bool) (p : list atom) (v : bson) : bool :=
  match v with BStr s => regex_search ignore_case p s | _ => false end.

(** One operator [name: arg] of the operator document [ops], read into a
    predicate on the candidates. *)
Definition eval_op (ops : dict) (name : string) (arg : bson)
    : option (list bson -> bool) :=
  if String.eqb name "$gte" then
    match arg with
    | BNum x => Some (existsb (num_ge x))
    | _ => None
    end
  else if String.eqb name "$lte" then
    match arg with
    | BNum x => Some (existsb (num_le x))
    | _ => None
    end
  else if String.eqb name "$in" then
    match arg with
    | BArr vs => Some (existsb (fun c => existsb (bson_eqb c) vs))
    | _ => None
    end
  else if String.eqb name "$regex" then
    match arg with
    | BStr pat =>
        let opts :=
          match dget "$options" ops with
          | None => Some false
          | Some (BStr o) => parse_options o
          | Some _ => None
          end in
        match opts, parse_regex pat with
        | Some ignore_case, Some p => Some (existsb (str_search ignore_case p))
        | _, _ => None
        end
    | _ => None
    end
  else if String.eqb name "$options" then
    match dget "$regex" ops with
    | Some _ => Some (fun _ => true)
    | None => None
    end
  else None.

Definition and_pred {A : Type} (f g : option (A -> bool)) : option (A -> bool) :=
  match f, g with
  | Some f, Some g => Some (fun x => f x && g x)
  | _, _ => None
  end.

Definition or_pred {A : Type} (f g : option (A -> bool)) : option (A -> bool) :=
  match f, g with
  | Some f, Some g => Some (fun x => f x || g x)
  | _, _ => None
  end.

Definition all_pred {A : Type} (l : list (option (A -> bool)))
    : option (A -> bool) :=
  fold_right and_pred (Some (fun _ => true)) l.

Definition any_pred {A : Type} (l : list (option (A -> bool)))
    : option (A -> bool) :=
  fold_right or_pred (Some (fun _ => false)) l.

(** All operators of an operator document must hold. *)
Definition eval_ops (ops : dict) : option (list bson -> bool) :=
  all_pred (map (fun op => eval_op ops (fst op) (snd op)) ops).

Definition is_operator_doc (fields : dict) : bool :=
  match fields with
  | (k, _) :: _ => String.prefix "$" k
  | [] => false
  end.

(** A clause [field: c] of a query, read into a predicate on the field's
    value. *)
Definition match_field (c : bson) : option (option bson -> bool) :=
  match c with
  | BDoc ops =>
      if is_operator_doc ops
      then option_map (fun f fv => f (candidates fv)) (eval_ops ops)
      else Some (fun fv => existsb (bson_eqb c) (candidates fv))
  | _ => Some (fun fv => existsb (bson_eqb c) (candidates fv))
  end.

(** One top-level clause [k: c] of a query; [sub] reads the alternatives
    of an [$or]. *)
Definition eval_clause (sub : bson -> option (dict -> bool))
    (clause : string * bson) : option (dict -> bool) :=
  let (k, c) := clause in
  if String.eqb k "$or" then
    match c with
    | BArr [] => None
    | BArr alts => any_pred (map sub alts)
    | _ => None
    end
  else if String.prefix "$" k then None
  else option_map (fun f d => f (dget k d)) (match_field c).

(** The query [flt] as a predicate on documents: all clauses must hold. *)
Fixpoint compile (flt : bson) {struct flt} : option (dict -> bool) :=
  match flt with
  | BDoc clauses => all_pred (map (eval_clause compile) clauses)
  | _ => None
  end.

(** Does document [d] satisfy the query [flt]? *)
Definition matches (flt : bson) (d : dict) : option bool :=
  option_map (fun f => f d) (compile flt).

(** The documents of [docs] that satisfy [flt], in stored order. *)
Definition select (flt : dict) (docs : list dict) : option (list dict) :=
  option_map (fun f => List.filter f docs) (compile (BDoc flt)).

(** ** The driver calls of [main.py] and the accessor of [database.py] *)

Definition log_call (op : store_op) (w : world) : world :=
  {| db := db w; environ := environ w; calls := calls w ++ [op] |}.

Definition set_db (d : database) (w : world) : world :=
  {| db := Some d; environ := environ w; calls := calls w |}.

(** One round trip through the handle [db]: it is recorded, a faulty
    server raises, a healthy one serves the request. *)
Definition round_trip {A} (op : store_op)
    (serve : database -> outcome A * database) : prog world A :=
  fun w =>
    match db w with
    | None => (Raise (Exception "'NoneType' object is not subscriptable"), w)
    | Some d =>
        let w' := log_call op w in
        match db_fault d with
        | Some e => (Raise (Exception e), w')
        | None => let (r, d') := serve d in (r, set_db d' w')
        end
    end.

Definition lift_select {A} (found : option (list dict)) (k : list dict -> A)
    : outcome A :=
  match found with
  | Some l => Ok (k l)
  | None => OutsideModel
  end.

(** [db[coll].count_documents(flt)] *)
Definition count_documents (coll : string) (flt : dict) : prog world nat :=
  round_trip (CountDocuments coll flt)
    (fun d => (lift_select (select flt (collection d coll)) (@length dict), d)).

(** [db.list_collection_names()] *)
Definition list_collection_names : prog world (list string) :=
  round_trip ListCollectionNames
    (fun d => (Ok (map fst (map_to_list (db_collections d))), d)).

(** The document as the server stores it: it gets a fresh [_id] unless it
    brings one. *)
Definition with_id (n : N) (data : dict) : dict :=
  match dget "_id" data with
  | Some _ => data
  | None => ("_id", BOid n) :: data
  end.

(** Modelled from the spec: [get_documents] of [database.py], which is not
    among the sources.  The accessor performs a straightforward find on one
    collection: the stored documents that satisfy the filter, the first
    [limit] of them when a limit is given. *)
Definition get_documents (coll : string) (flt : dict) (limit : option nat)
    : prog world (list dict) :=
  round_trip (Find coll flt limit)
    (fun d =>
       (lift_select (select flt (collection d coll))
          (fun found =>
             match limit with
             | Some n => take n found
             | None => found
             end), d)).

(** Modelled from the spec: [create_document] of [database.py], which is
    not among the sources.  The accessor performs a straightforward insert:
    the document is added to the collection, the store assigning its
    identity, which is returned. *)
Definition create_document (coll : string) (data : dict) : prog world bson :=
  round_trip (InsertOne coll data)
    (fun d =>
       let stored := with_id (db_next_id d) data in
       (Ok (default BNull (dget "_id" stored)),
        bump_id (set_collection coll (collection d coll ++ [stored]) d))).

(** ** The Product schema *)

(** Modelled from the spec: [Product] of [schemas.py], which is not among
    the sources.  title (text), description (text), price (decimal,
    non-negative), category (women | men | home), in_stock (boolean),
    image_url (text), brand (text), rating (decimal 0-5), tags (ordered
    sequence of text), featured (boolean); there is no identifier field. *)
Record Product : Type := {
  title : text;
  description : text;
  price : Q;
  category : text;
  in_stock : bool;
  image_url : text;
  brand : text;
  rating : Q;
  tags : list text;
  featured : bool
}.

Definition get_str (k : string) (d : dict) : option text :=
  match dget k d with Some (BStr s) => Some s | _ => None end.

Definition get_num (k : string) (d : dict) : option Q :=
  match dget k d with Some (BNum x) => Some x | _ => None end.

Definition get_bool (k : string) (d : dict) : option bool :=
  match dget k d with Some (BBool b) => Some b | _ => None end.

Fixpoint strs_of (items : list bson) : option (list text) :=
  match items with
  | [] => Some []
  | BStr s :: rest => option_map (cons s) (strs_of rest)
  | _ :: _ => None
  end.

Definition get_strs (k : string) (d : dict) : option (list text) :=
  match dget k d with Some (BArr items) => strs_of items | _ => None end.

Definition categories : list text := ["women"; "men"; "home"]%text.

(** The constraints the schema puts on the field values. *)
Definition well_formed (p : Product) : bool :=
  Qle_bool 0 (price p)
  && existsb (text_eqb (category p)) categories
  && Qle_bool 0 (rating p) && Qle_bool (rating p) 5.

(** Modelled from the spec: the fields of the document read into the
    Product shape, when each is there with its type. *)
Definition read_Product (d : dict) : option Product :=
  match get_str "title" d, get_str "description" d, get_num "price" d,
        get_str "category" d, get_bool "in_stock" d, get_str "image_url" d,
        get_str "brand" d, get_num "rating" d, get_strs "tags" d,
        get_bool "featured" d with
  | Some t, Some de, Some pr, Some ca, Some st, Some im, Some br, Some ra,
    Some ta, Some fe =>
      Some {| title := t; description := de; price := pr; category := ca;
              in_stock := st; image_url := im; brand := br; rating := ra;
              tags := ta; featured := fe |}
  | _, _, _, _, _, _, _, _, _, _ => None
  end.

(** Modelled from the spec: [Product( **d )], the document validated and
    coerced into the Product shape; a document that does not fit raises. *)
Definition new_Product {S} (d : dict) : prog S Product :=
  match read_Product d with
  | Some p =>
      if well_formed p then ret p
      else raise (Exception "ValidationError")
  | None => raise (Exception "ValidationError")
  end.

(** ** [GET /test] *)

(** The dict [response] of [test_database]. *)
Record diagnostics : Type := {
  backend : text;
  database_ : text;
  database_url : option text;
  database_name : option text;
  connection_status : text;
  collections : list string
}.

Definition set_database (v : text) (r : diagnostics) : diagnostics :=
  {| backend := backend r; database_ := v; database_url := database_url r;
     database_name := database_name r;
     connection_status := connection_status r; collections := collections r |}.

Definition set_database_url (v : text) (r : diagnostics) : diagnostics :=
  {| backend := backend r; database_ := database_ r; database_url := Some v;
     database_name := database_name r;
     connection_status := connection_status r; collections := collections r |}.

Definition set_database_name (v : text) (r : diagnostics) : diagnostics :=
  {| backend := backend r; database_ := database_ r;
     database_url := database_url r; database_name := Some v;
     connection_status := connection_status r; collections := collections r |}.

Definition set_connection_status (v : text) (r : diagnostics) : diagnostics :=
  {| backend := backend r; database_ := database_ r;
     database_url := database_url r; database_name := database_name r;
     connection_status := v; collections := collections r |}.

Definition set_collections (v : list string) (r : diagnostics) : diagnostics :=
  {| backend := backend r; database_ := database_ r;
     database_url := database_url r; database_name := database_name r;
     connection_status := connection_status r; collections := v |}.

(** The handler mutates [response] step by step, and an [except] clause
    sees it as the interrupted block left it: the dict is part of the
    state, next to the world. *)
Abbreviation frame := (world * diagnostics)%type.

Definition in_world {A} (c : prog world A) : prog frame A :=
  fun s =>
    let (o, w') := c (fst s) in (o, (w', snd s)).

(** [response[...] = ...] *)
Definition assign (f : diagnostics -> diagnostics) : prog frame unit :=
  modify (fun s => (fst s, f (snd s))).

(** The module-level [db]. *)
Definition read_db : prog world (option database) :=
  fun w => (Ok (db w), w).

(** [os.getenv(k)] *)
Definition getenv (k : string) : prog world (option text) :=
  fun w => (Ok (environ w !! k), w).

(** Truth value of an optional text: [None] and the empty text are false. *)
Definition truthy (o : option text) : bool :=
  match o with
  | Some s => negb (text_eqb s "")
  | None => false
  end.

(** [hasattr(d, 'name')]: false on a missing attribute; what reading the
    attribute raises otherwise goes through. *)
Definition hasattr_name {S} (d : database) : prog S bool :=
  match db_name d with
  | NoAttr => ret false
  | Attr _ => ret true
  | AttrRaises e => raise (Exception e)
  end.

(** [d.name] *)
Definition getattr_name {S} (d : database) : prog S text :=
  match db_name d with
  | NoAttr => raise (Exception "'Database' object has no attribute 'name'")
  | Attr s => ret s
  | AttrRaises e => raise (Exception e)
  end.

Definition initial_response : diagnostics :=
  {| backend := "✅ Running";
     database_ := "❌ Not Available";
     database_url := None;
     database_name := None;
     connection_status := "Not Connected";
     collections := [] |}.

Definition test_database_body : prog frame diagnostics :=
  try_except
    (let* h := in_world read_db in
     match h with
     | Some d =>
         assign (set_database "✅ Available") ;;;
         let* url := in_world (getenv "DATABASE_URL") in
         assign (set_database_url (if truthy url then "✅ Set" else "❌ Not Set")) ;;;
         let* has := hasattr_name d in
         let* name := (if has : bool then getattr_name d else ret "✅ Connected"%text) in
         assign (set_database_name name) ;;;
         assign (set_connection_status "Connected") ;;;
         try_except
           (let* names := in_world list_collection_names in
            assign (set_collections (take 10 names)) ;;;
            assign (set_database "✅ Connected & Working"))
           (fun e =>
              assign (set_database
                        ("⚠️  Connected but Error: " ++ slice_to 50 (str e))))
     | None =>
         assign (set_database "⚠️  Available but not initialized")
     end)
    (fun e => assign (set_database ("❌ Error: " ++ slice_to 50 (str e)))) ;;;
  let* s := get in
  ret (snd s).

Definition test_database : prog world diagnostics :=
  fun w =>
    let (o, s) := test_database_body (w, initial_response) in (o, fst s).

(** ** [POST /seed] *)

Definition demo_products : list dict :=
  [ [ ("title", BStr "Velvet Rose Eau de Parfum");
      ("description", BStr "A lush floral fragrance with notes of rose, amber, and musk.");
      ("price", BNum 79.0);
      ("category", BStr "women");
      ("in_stock", BBool true);
      ("image_url", BStr "https://images.unsplash.com/photo-1523292562811-8fa7962a78c8");
      ("brand", BStr "Aurelia");
      ("rating", BNum 4.7);
      ("tags", BArr [BStr "fragrance"; BStr "perfume"; BStr "floral"]);
      ("featured", BBool true) ];
    [ ("title", BStr "Gentleman Grooming Kit");
      ("description", BStr "Complete shaving and beard care kit with natural oils.");
      ("price", BNum 59.0);
      ("category", BStr "men");
      ("in_stock", BBool true);
      ("image_url", BStr "https://images.unsplash.com/photo-1600986603369-9d3d0f6f0f9b");
      ("brand", BStr "NordCraft");
      ("rating", BNum 4.5);
      ("tags", BArr [BStr "grooming"; BStr "kit"; BStr "beard"]);
      ("featured", BBool true) ];
    [ ("title", BStr "Ceramic Wave Vase");
      ("description", BStr "Minimal wave-pattern vase to elevate any interior.");
      ("price", BNum 39.0);
      ("category", BStr "home");
      ("in_stock", BBool true);
      ("image_url", BStr "https://images.unsplash.com/photo-1523419409543-a7cf3f4e8d8f");
      ("brand", BStr "Haven");
      ("rating", BNum 4.6);
      ("tags", BArr [BStr "decor"; BStr "vase"; BStr "ceramic"]);
      ("featured", BBool false) ];
    [ ("title", BStr "Lavender Silk Body Lotion");
      ("description", BStr "Ultra-hydrating lotion with calming lavender.");
      ("price", BNum 24.0);
      ("category", BStr "women");
      ("in_stock", BBool true);
      ("image_url", BStr "https://images.unsplash.com/photo-1585386959984-a41552231658");
      ("brand", BStr "Serene");
      ("rating", BNum 4.4);
      ("tags", BArr [BStr "body"; BStr "lotion"; BStr "lavender"]);
      ("featured", BBool false) ];
    [ ("title", BStr "Matte Stone Candle Holder");
      ("description", BStr "Sculptural holder with a soft matte finish.");
      ("price", BNum 29.0);
      ("category", BStr "home");
      ("in_stock", BBool true);
      ("image_url", BStr "https://images.unsplash.com/photo-1519710164239-da123dc03ef4");
      ("brand", BStr "Aura");
      ("rating", BNum 4.3);
      ("tags", BArr [BStr "decor"; BStr "candle"]);
      ("featured", BBool false) ] ].

(** The dict [seed_products] returns. *)
Record seed_result : Type := {
  message : text;
  count : nat
}.

Definition not_configured : exn :=
  HTTPException 500 "Database not configured".

(** The body of the seeding loop: [create_document("product", p)], its
    result dropped. *)
Definition insert_product (p : dict) : prog world unit :=
  let* _ := create_document "product" p in ret tt.

Definition seed_products : prog world seed_result :=
  let* h := read_db in
  match h with
  | None => raise not_configured
  | Some _ =>
      let* count := count_documents "product" [] in
      if (0 <? count)%nat then
        ret {| message := "Catalog already seeded"; count := count |}
      else
        for_each demo_products insert_product ;;;
        ret {| message := "Catalog seeded"; count := length demo_products |}
  end.

(** ** [GET /products] and [GET /products/featured] *)

(** [x is not None] *)
Definition is_not_None {A} (x : option A) : bool :=
  match x with
  | Some _ => true
  | None => false
  end.

(** The filter [list_products] builds from its query parameters. *)
Definition build_filters (category q : option text) (featured : option bool)
    (min_price max_price : option Q) : dict :=
  let filters : dict := [] in
  let filters :=
    match category with
    | Some c => if truthy category then dset "category" (BStr c) filters else filters
    | None => filters
    end in
  let filters :=
    match featured with
    | Some f => dset "featured" (BBool f) filters
    | None => filters
    end in
  let filters :=
    if is_not_None min_price || is_not_None max_price then
      let price_filter : dict := [] in
      let price_filter :=
        match min_price with
        | Some lo => dset "$gte" (BNum lo) price_filter
        | None => price_filter
        end in
      let price_filter :=
        match max_price with
        | Some hi => dset "$lte" (BNum hi) price_filter
        | None => price_filter
        end in
      dset "price" (BDoc price_filter) filters
    else filters in
  match q with
  | Some text =>
      if truthy q then
        dset "$or"
          (BArr [ BDoc [("title", BDoc [("$regex", BStr text); ("$options", BStr "i")])];
                  BDoc [("description", BDoc [("$regex", BStr text); ("$options", BStr "i")])];
                  BDoc [("tags", BDoc [("$in", BArr [BStr text])])] ])
          filters
      else filters
  | None => filters
  end.

(** [for d in docs: d.pop("_id", None); out.append(Product( **d ))], for
    any constructor [mk] in the place of the class [Product], which is
    declared in [schemas.py]. *)
Fixpoint to_products_with {S P : Type} (mk : dict -> prog S P)
    (docs : list dict) : prog S (list P) :=
  match docs with
  | [] => ret []
  | d :: rest =>
      let d := dpop "_id" d in
      let* p := mk d in
      let* ps := to_products_with mk rest in
      ret (p :: ps)
  end.

Definition list_products_with {P : Type} (mk : dict -> prog world P)
    (category q : option text) (featured : option bool)
    (min_price max_price : option Q) : prog world (list P) :=
  let* h := read_db in
  match h with
  | None => raise not_configured
  | Some _ =>
      let filters := build_filters category q featured min_price max_price in
      let* docs := get_documents "product" filters None in
      to_products_with mk docs
  end.

Definition featured_products_with {P : Type} (mk : dict -> prog world P)
    : prog world (list P) :=
  let* h := read_db in
  match h with
  | None => raise not_configured
  | Some _ =>
      let* docs := get_documents "product" [("featured", BBool true)] (Some 6%nat) in
      to_products_with mk docs
  end.

(** The handlers, with the class [Product] as modelled above. *)
Definition to_products {S : Type} : list dict -> prog S (list Product) :=
  to_products_with new_Product.

Definition list_products : option text -> option text -> option bool ->
    option Q -> option Q -> prog world (list Product) :=
  list_products_with new_Product.

Definition featured_products : prog world (list Product) :=
  featured_products_with new_Product.

(** ** Vocabulary of the properties *)

(** [mid] reads as [q] does, letter by letter, case aside. *)
Definition same_letters (q mid : text) : Prop :=
  Forall2 (fun x c => caseless x c = true) (chars q) (chars mid).

(** [subject] contains [q] as a substring, letter case aside. *)
Definition contains_ci (subject q : text) : Prop :=
  exists pre mid post : text,
    subject = (pre ++ mid ++ post)%text /\ same_letters q mid.

(** [q] is free of regular-expression operators. *)
Definition plain (q : text) : bool :=
  forallb (fun c => negb (is_metachar c)) (chars q).

(** The pattern that reads [q] letter by letter. *)
Definition literal (q : text) : list atom :=
  map Lit (chars q).

(** [kept] lists, in order, exactly the elements of a list that satisfy
    [P]. *)
Inductive keeps {A : Type} (P : A -> Prop) : list A -> list A -> Prop :=
| keeps_nil : keeps P [] []
| keeps_take x l kept : P x -> keeps P l kept -> keeps P (x :: l) (x :: kept)
| keeps_skip x l kept : ~ P x -> keeps P l kept -> keeps P (x :: l) kept.

(** The product a stored document is returned as: its [_id] popped, the
    rest validated. *)
Definition view (d : dict) : option Product :=
  match read_Product (dpop "_id" d) with
  | Some p => if well_formed p then Some p else None
  | None => None
  end.

(** A stored document that fits the Product shape. *)
Definition is_product (d : dict) : Prop := exists p, view d = Some p.

(** The free-text criterion of the search. *)
Definition text_hit (q : text) (d : dict) : Prop :=
  exists p, view d = Some p /\
    (contains_ci (title p) q \/ contains_ci (description p) q \/ In q (tags p)).

(** The price criterion: only the given bounds constrain. *)
Definition in_range (lo hi : option Q) (x : Q) : Prop :=
  match lo with Some a => (a <= x)%Q | None => True end /\
  match hi with Some b => (x <= b)%Q | None => True end.

Definition price_hit (lo hi : option Q) (d : dict) : Prop :=
  exists p, view d = Some p /\ in_range lo hi (price p).

(** What the server decides for the free-text clause, for a [q] read
    letter by letter. *)
Definition text_hitb (q : text) (d : dict) : bool :=
  existsb (str_search true (literal q)) (candidates (dget "title" d))
  || existsb (str_search true (literal q)) (candidates (dget "description" d))
  || existsb (fun c => existsb (bson_eqb c) [BStr q]) (candidates (dget "tags" d)).

(** What the server decides for the price clause. *)
Definition price_hitb (lo hi : option Q) (d : dict) : bool :=
  match lo with
  | Some a => existsb (num_ge a) (candidates (dget "price" d))
  | None => true
  end &&
  match hi with
  | Some b => existsb (num_le b) (candidates (dget "price" d))
  | None => true
  end.

(** The products a list of documents is returned as, when all fit. *)
Definition returned_as (docs : list dict) (ps : list Product) : Prop :=
  Forall2 (fun d p => view d = Some p) docs ps.

(** The loop of [to_products] without the state it never touches. *)
Fixpoint products_of (docs : list dict) : outcome (list Product) :=
  match docs with
  | [] => Ok []
  | d :: rest =>
      match view d with
      | Some p =>
          match products_of rest with
          | Ok ps => Ok (p :: ps)
          | other => other
          end
      | None => Raise (Exception "ValidationError")
      end
  end.

Definition is_productb (d : dict) : bool :=
  match view d with
  | Some _ => true
  | None => false
  end.

(** A configured, healthy store with an empty catalog. *)
Definition fresh_database : database :=
  {| db_name := Attr "marketplace"; db_fault := None; db_next_id := 0;
     db_collections := ∅ |}.

Definition fresh : world :=
  {| db := Some fresh_database; environ := ∅; calls := [] |}.

(** Documents as the store holds them after they were inserted one after
    the other, the first under identity [n]. *)
Fixpoint number (n : N) (docs : list dict) : list dict :=
  match docs with
  | [] => []
  | p :: rest => with_id n p :: number (N.succ n) rest
  end.

(** The demo catalog as the store holds it after seeding. *)
Definition seeded_catalog : list dict := number 0 demo_products.

Definition seeded_database : database :=
  {| db_name := Attr "marketplace"; db_fault := None; db_next_id := 5;
     db_collections := {[ "product" := seeded_catalog ]} |}.

Definition seeded : world :=
  {| db := Some seeded_database; environ := ∅; calls := [] |}.

Definition unconfigured : world :=
  {| db := None; environ := ∅; calls := [] |}.



(** A store round trip that does not write. *)
Definition is_read (op : store_op) : bool :=
  match op with
  | InsertOne _ _ => false
  | _ => true
  end.

(** From [w] to [w'] the database is the same, and the round trips made
    in between were all reads. *)
Definition only_reads (w w' : world) : Prop :=
  db w' = db w /\
  exists ops, calls w' = calls w ++ ops /\ forallb is_read ops = true.

(** What the server decides for the whole filter of [list_products], for
    a [q] read letter by letter. *)
Definition filter_hitb (category_ q : option text) (featured_ : option bool)
    (lo hi : option Q) (d : dict) : bool :=
  match category_ with
  | Some v =>
      if truthy category_
      then existsb (bson_eqb (BStr v)) (candidates (dget "category" d))
      else true
  | None => true
  end &&
  match featured_ with
  | Some b => existsb (bson_eqb (BBool b)) (candidates (dget "featured" d))
  | None => true
  end &&
  price_hitb lo hi d &&
  match q with
  | Some t => if truthy q then text_hitb t d else true
  | None => true
  end.

(** All criteria of [list_products] together: each parameter that is given
    (and, for the two strings, non-empty) must hold of the document. *)
Definition filter_hit (category_ q : option text) (featured_ : option bool)
    (lo hi : option Q) (d : dict) : Prop :=
  exists p, view d = Some p /\
    (forall v, category_ = Some v -> v <> ""%text -> category p = v) /\
    (forall b, featured_ = Some b -> featured p = b) /\
    in_range lo hi (price p) /\
    (forall t, q = Some t -> t <> ""%text ->
       contains_ci (title p) t \/ contains_ci (description p) t \/ In t (tags p)).

(** The seeded store with one more document, which has only a title and
    so does not fit the Product shape. *)
Definition stray_database : database :=
  {| db_name := Attr "marketplace"; db_fault := None; db_next_id := 6;
     db_collections :=
       {[ "product" := seeded_catalog ++ [[("_id", BOid 5); ("title", BStr "stray")]] ]} |}.

Definition stray : world :=
  {| db := Some stray_database; environ := ∅; calls := [] |}.

(** The seeded store behind a server that refuses every round trip. *)
Definition faulty_database : database :=
  {| db_name := Attr "marketplace"; db_fault := Some "connection refused"%text;
     db_next_id := 5;
     db_collections := {[ "product" := seeded_catalog ]} |}.

Definition faulty : world :=
  {| db := Some faulty_database;
     environ := {[ "DATABASE_URL" := "mongodb://localhost:27017"%text ]};
     calls := [] |}.

(** The demo catalog under other identities. *)
Definition renumbered_database : database :=
  {| db_name := Attr "marketplace"; db_fault := None; db_next_id := 105;
     db_collections := {[ "product" := number 100 demo_products ]} |}.

Definition renumbered : world :=
  {| db := Some renumbered_database; environ := ∅; calls := [] |}.

(** The answer of a listing as a function of the stored documents. *)
Definition answer (flt : dict) (limit : option nat) (docs : list dict)
    : outcome (list Product) :=
  match select flt docs with
  | Some found =>
      products_of (match limit with Some n => take n found | None => found end)
  | None => OutsideModel
  end.

(** A store with one product whose title has a letter outside ASCII. *)
Definition cafe_catalog : list dict :=
  [ [ ("_id", BOid 0);
      ("title", BStr "Café");
      ("description", BStr "Ground coffee, dark roast.");
      ("price", BNum 9.5);
      ("category", BStr "home");
      ("in_stock", BBool true);
      ("image_url", BStr "https://example.com/cafe.jpg");
      ("brand", BStr "Moka");
      ("rating", BNum 4.0);
      ("tags", BArr [BStr "coffee"]);
      ("featured", BBool false) ] ].

Definition cafe_database : database :=
  {| db_name := Attr "marketplace"; db_fault := None; db_next_id := 1;
     db_collections := {[ "product" := cafe_catalog ]} |}.

Definition cafe : world :=
  {| db := Some cafe_database; environ := ∅; calls := [] |}.

(** The demo data as products. *)
Definition demo_catalog : list Product := omap read_Product demo_products.

(** ** Texts and patterns *)

Lemma text_eqb_eq (s t : text) : text_eqb s t = true <-> s = t.
Proof.
  revert t. induction s as [|a s IH]; intros [|b t]; simpl;
    try (split; [discriminate | discriminate]); [tauto |].
  rewrite andb_true_iff, N.eqb_eq, IH. split.
  - intros [-> ->]. reflexivity.
  - intros [= -> ->]. auto.
Qed.

Lemma text_eqb_neq (s t : text) : text_eqb s t = false <-> s <> t.
Proof.
  rewrite <- text_eqb_eq. destruct (text_eqb s t); split; congruence.
Qed.

Lemma match_here_literal (q s : text) :
  match_here true (literal q) s = true <->
  exists mid post : text,
    s = (mid ++ post)%text /\ same_letters q mid.
Proof.
  unfold same_letters. revert s. induction q as [|c q IH]; intros s.
  - split; [intros _ | intros _; destruct s; reflexivity].
    exists TNil, s. split; [reflexivity | constructor].
  - destruct s as [|a s]; simpl.
    + split; [discriminate |].
      intros (mid & post & Hs & Hl). destruct mid; [inversion Hl | discriminate].
    + rewrite andb_true_iff. fold (literal q). rewrite IH. split.
      * intros (Hc & mid & post & Hs & Hl).
        exists (TCons a mid), post. simpl. rewrite Hs.
        split; [reflexivity | constructor; assumption].
      * intros (mid & post & Hs & Hl).
        destruct mid as [|a' mid]; simpl in Hs, Hl; [inversion Hl |].
        injection Hs as -> ->. inversion Hl; subst.
        split; [assumption |]. exists mid, post. split; [reflexivity | assumption].
Qed.

Lemma regex_search_literal (q s : text) :
  regex_search true (literal q) s = true <-> contains_ci s q.
Proof.
  unfold contains_ci. induction s as [|a s IH].
  - simpl. rewrite orb_false_r, match_here_literal. split.
    + intros (mid & post & Hs & Hl). exists TNil, mid, post. auto.
    + intros (pre & mid & post & Hs & Hl).
      destruct pre; [| discriminate]. exists mid, post. auto.
  - cbn [regex_search]. rewrite orb_true_iff, IH, match_here_literal. split.
    + intros [(mid & post & Hs & Hl) | (pre & mid & post & Hs & Hl)].
      * exists TNil, mid, post. auto.
      * exists (TCons a pre), mid, post. simpl. rewrite Hs. auto.
    + intros (pre & mid & post & Hs & Hl). destruct pre as [|a' pre].
      * left. exists mid, post. auto.
      * right. simpl in Hs. injection Hs as -> ->. exists pre, mid, post. auto.
Qed.

Lemma parse_regex_plain (q : text) :
  plain q = true -> parse_regex q = Some (literal q).
Proof.
  unfold plain, literal. induction q as [|c q IH]; simpl; [reflexivity |].
  rewrite andb_true_iff, negb_true_iff. intros [Hc Hq].
  rewrite (IH Hq), Hc.
  destruct (N.eqb c 46) eqn:Hdot; [| reflexivity].
  apply N.eqb_eq in Hdot. subst c. discriminate.
Qed.

(** ** Dicts and the Product view *)

Lemma dget_dpop_ne (k k' : string) (d : dict) :
  k <> k' -> dget k (dpop k' d) = dget k d.
Proof.
  intros Hne. induction d as [|[k0 v] d IH]; simpl; [reflexivity |].
  destruct (String.eqb k0 k') eqn:E; simpl.
  - apply String.eqb_eq in E. subst k0.
    destruct (String.eqb k' k) eqn:E'; [| exact IH].
    apply String.eqb_eq in E'. congruence.
  - rewrite IH. reflexivity.
Qed.


Lemma get_str_dpop (k : string) (d : dict) :
  k <> "_id" -> get_str k (dpop "_id" d) = get_str k d.
Proof. intros H. unfold get_str. rewrite dget_dpop_ne by exact H. reflexivity. Qed.

Lemma get_num_dpop (k : string) (d : dict) :
  k <> "_id" -> get_num k (dpop "_id" d) = get_num k d.
Proof. intros H. unfold get_num. rewrite dget_dpop_ne by exact H. reflexivity. Qed.

Lemma get_bool_dpop (k : string) (d : dict) :
  k <> "_id" -> get_bool k (dpop "_id" d) = get_bool k d.
Proof. intros H. unfold get_bool. rewrite dget_dpop_ne by exact H. reflexivity. Qed.

Lemma get_strs_dpop (k : string) (d : dict) :
  k <> "_id" -> get_strs k (dpop "_id" d) = get_strs k d.
Proof. intros H. unfold get_strs. rewrite dget_dpop_ne by exact H. reflexivity. Qed.

(** The fields a query looks at, read off a document that fits. *)
Lemma view_fields (d : dict) (p : Product) :
  view d = Some p ->
  get_str "title" d = Some (title p) /\
  get_str "description" d = Some (description p) /\
  get_num "price" d = Some (price p) /\
  get_str "category" d = Some (category p) /\
  get_strs "tags" d = Some (tags p) /\
  get_bool "featured" d = Some (featured p).
Proof.
  unfold view, read_Product.
  rewrite !get_str_dpop, !get_num_dpop, !get_bool_dpop, !get_strs_dpop
    by discriminate.
  destruct (get_str "title" d); [| discriminate].
  destruct (get_str "description" d); [| discriminate].
  destruct (get_num "price" d); [| discriminate].
  destruct (get_str "category" d); [| discriminate].
  destruct (get_bool "in_stock" d); [| discriminate].
  destruct (get_str "image_url" d); [| discriminate].
  destruct (get_str "brand" d); [| discriminate].
  destruct (get_num "rating" d); [| discriminate].
  destruct (get_strs "tags" d); [| discriminate].
  destruct (get_bool "featured" d); [| discriminate].
  destruct (well_formed _); [| discriminate].
  intros [= <-]. simpl. repeat split; reflexivity.
Qed.

Lemma get_str_candidates (k : string) (s : text) (d : dict) :
  get_str k d = Some s -> candidates (dget k d) = [BStr s].
Proof.
  unfold get_str. destruct (dget k d) as [[]|]; try discriminate.
  intros [= ->]. reflexivity.
Qed.

Lemma get_num_candidates (k : string) (x : Q) (d : dict) :
  get_num k d = Some x -> candidates (dget k d) = [BNum x].
Proof.
  unfold get_num. destruct (dget k d) as [[]|]; try discriminate.
  intros [= ->]. reflexivity.
Qed.

Lemma get_bool_candidates (k : string) (b : bool) (d : dict) :
  get_bool k d = Some b -> candidates (dget k d) = [BBool b].
Proof.
  unfold get_bool. destruct (dget k d) as [[]|]; try discriminate.
  intros [= ->]. reflexivity.
Qed.

Lemma strs_of_member (q : text) (items : list bson) (ss : list text) :
  strs_of items = Some ss ->
  existsb (fun c => existsb (bson_eqb c) [BStr q]) items = true <-> In q ss.
Proof.
  revert ss. induction items as [|v items IH]; intros ss; simpl.
  - intros [= <-]. simpl. split; [discriminate | tauto].
  - destruct v; try discriminate.
    destruct (strs_of items) as [ss'|]; [| discriminate].
    intros [= <-]. rewrite orb_true_iff, (IH ss' eq_refl). simpl.
    rewrite orb_false_r, text_eqb_eq. tauto.
Qed.

Lemma get_strs_member (k : string) (q : text) (ss : list text) (d : dict) :
  get_strs k d = Some ss ->
  existsb (fun c => existsb (bson_eqb c) [BStr q]) (candidates (dget k d)) = true
  <-> In q ss.
Proof.
  unfold get_strs. destruct (dget k d) as [[]|]; try discriminate.
  intros H. cbn [candidates existsb bson_eqb orb].
  apply strs_of_member. exact H.
Qed.

(** ** Selection *)

Lemma select_filter (flt : dict) (f : dict -> bool) (docs : list dict) :
  (forall d, matches (BDoc flt) d = Some (f d)) ->
  select flt docs = Some (List.filter f docs).
Proof.
  unfold select, matches. intros H.
  destruct (compile (BDoc flt)) as [g|]; [| specialize (H []); discriminate].
  simpl. f_equal. apply List.filter_ext. intros d.
  specialize (H d). simpl in H. congruence.
Qed.

Lemma select_sound (flt : dict) (docs found : list dict) :
  select flt docs = Some found ->
  Forall (fun d => In d docs /\ matches (BDoc flt) d = Some true) found.
Proof.
  unfold select, matches.
  destruct (compile (BDoc flt)) as [g|]; [| discriminate].
  intros [= <-]. apply List.Forall_forall. intros d Hd.
  apply List.filter_In in Hd. destruct Hd as [Hin Hg].
  split; [exact Hin | simpl; rewrite Hg; reflexivity].
Qed.

Lemma keeps_filter {A : Type} (P : A -> Prop) (f : A -> bool) (l : list A) :
  (forall x, In x l -> (f x = true <-> P x)) ->
  keeps P l (List.filter f l).
Proof.
  induction l as [|x l IH]; intros H; simpl; [constructor |].
  assert (Hl : keeps P l (List.filter f l)).
  { apply IH. intros y Hy. apply H. right. exact Hy. }
  destruct (f x) eqn:E.
  - apply keeps_take; [apply H; [left; reflexivity | exact E] | exact Hl].
  - apply keeps_skip; [| exact Hl].
    intros HP. apply H in HP; [congruence | left; reflexivity].
Qed.

(** ** Running the handlers *)

Lemma bind_ok {S A B : Type} (c : prog S A) (k : A -> prog S B) (s s' : S)
    (a : A) :
  c s = (Ok a, s') -> bind c k s = k a s'.
Proof. intros H. unfold bind. rewrite H. reflexivity. Qed.

Lemma bind_raise {S A B : Type} (c : prog S A) (k : A -> prog S B) (s s' : S)
    (e : exn) :
  c s = (Raise e, s') -> bind c k s = (Raise e, s').
Proof. intros H. unfold bind. rewrite H. reflexivity. Qed.

Lemma to_products_run {S : Type} (docs : list dict) (s : S) :
  to_products_with new_Product docs s = (products_of docs, s).
Proof.
  induction docs as [|d docs IH]; [reflexivity |].
  cbn [to_products_with products_of]. unfold bind at 1.
  assert (Hmk : @new_Product S (dpop "_id" d) s
                = (match view d with
                   | Some p => Ok p
                   | None => Raise (Exception "ValidationError")
                   end, s)).
  { unfold new_Product, view.
    destruct (read_Product (dpop "_id" d)) as [p|]; [| reflexivity].
    destruct (well_formed p); reflexivity. }
  rewrite Hmk. destruct (view d); [| reflexivity].
  unfold bind. rewrite IH. destruct (products_of docs); reflexivity.
Qed.

Lemma products_of_ok (docs : list dict) (ps : list Product) :
  products_of docs = Ok ps -> returned_as docs ps.
Proof.
  revert ps. induction docs as [|d docs IH]; intros ps; simpl.
  - intros [= <-]. constructor.
  - destruct (view d) as [p|] eqn:Hv; [| discriminate].
    destruct (products_of docs) as [ps'| |]; try discriminate.
    intros [= <-]. constructor; [exact Hv | apply IH; reflexivity].
Qed.

Lemma products_of_valid (docs : list dict) :
  Forall is_product docs ->
  exists ps, products_of docs = Ok ps /\ returned_as docs ps.
Proof.
  induction 1 as [|d docs [p Hp] _ (ps & Hps & Hr)]; simpl.
  - exists []. split; [reflexivity | constructor].
  - exists (p :: ps). rewrite Hp, Hps. split; [reflexivity |].
    constructor; assumption.
Qed.

Lemma get_documents_healthy (w : world) (d : database) (coll : string)
    (flt : dict) (limit : option nat) :
  db w = Some d -> db_fault d = None ->
  get_documents coll flt limit w =
    (lift_select (select flt (collection d coll))
       (fun found => match limit with Some n => take n found | None => found end),
     set_db d (log_call (Find coll flt limit) w)).
Proof.
  intros Hdb Hf. unfold get_documents, round_trip. rewrite Hdb, Hf. reflexivity.
Qed.

Lemma list_products_healthy (w : world) (d : database)
    (category q : option text) (featured : option bool)
    (min_price max_price : option Q) :
  db w = Some d -> db_fault d = None ->
  fst (list_products category q featured min_price max_price w) =
    match select (build_filters category q featured min_price max_price)
            (collection d "product") with
    | Some found => products_of found
    | None => OutsideModel
    end.
Proof.
  intros Hdb Hf. unfold list_products, list_products_with, bind, read_db. rewrite Hdb.
  rewrite (get_documents_healthy w d) by assumption.
  destruct (select _ _) as [found|]; simpl; [| reflexivity].
  rewrite to_products_run. reflexivity.
Qed.

Lemma featured_products_healthy (w : world) (d : database) :
  db w = Some d -> db_fault d = None ->
  fst (featured_products w) =
    match select [("featured", BBool true)] (collection d "product") with
    | Some found => products_of (take 6 found)
    | None => OutsideModel
    end.
Proof.
  intros Hdb Hf. unfold featured_products, featured_products_with, bind, read_db. rewrite Hdb.
  rewrite (get_documents_healthy w d) by assumption.
  destruct (select _ _) as [found|]; simpl; [| reflexivity].
  rewrite to_products_run. reflexivity.
Qed.

(** A handler that answers has a configured, healthy store behind it. *)
Lemma list_products_ok (w : world) (category q : option text)
    (featured : option bool) (min_price max_price : option Q)
    (ps : list Product) :
  fst (list_products category q featured min_price max_price w) = Ok ps ->
  exists d found,
    db w = Some d /\ db_fault d = None /\
    select (build_filters category q featured min_price max_price)
      (collection d "product") = Some found /\
    products_of found = Ok ps.
Proof.
  destruct (db w) as [d|] eqn:Hdb.
  - destruct (db_fault d) as [e|] eqn:Hf.
    + unfold list_products, list_products_with, bind, read_db, get_documents, round_trip.
      repeat (rewrite ?Hdb, ?Hf; cbn beta iota). discriminate.
    + rewrite (list_products_healthy w d) by assumption.
      destruct (select _ _) as [found|] eqn:Hs; [| discriminate].
      intros H. exists d, found. auto.
  - unfold list_products, list_products_with, bind, read_db. rewrite Hdb. discriminate.
Qed.

Lemma featured_products_ok (w : world) (ps : list Product) :
  fst (featured_products w) = Ok ps ->
  exists d found,
    db w = Some d /\ db_fault d = None /\
    select [("featured", BBool true)] (collection d "product") = Some found /\
    products_of (take 6 found) = Ok ps.
Proof.
  destruct (db w) as [d|] eqn:Hdb.
  - destruct (db_fault d) as [e|] eqn:Hf.
    + unfold featured_products, featured_products_with, bind, read_db, get_documents, round_trip.
      repeat (rewrite ?Hdb, ?Hf; cbn beta iota). discriminate.
    + rewrite (featured_products_healthy w d) by assumption.
      destruct (select _ _) as [found|] eqn:Hs; [| discriminate].
      intros H. exists d, found. auto.
  - unfold featured_products, featured_products_with, bind, read_db. rewrite Hdb. discriminate.
Qed.

(** ** What the filters of [list_products] select *)

Lemma truthy_nonempty (q : text) : q <> ""%text -> truthy (Some q) = true.
Proof.
  intros H. unfold truthy. destruct (text_eqb q "") eqn:E; [| reflexivity].
  apply text_eqb_eq in E. contradiction.
Qed.

Lemma text_query_matches (q : text) (d : dict) :
  q <> ""%text -> plain q = true ->
  matches (BDoc (build_filters None (Some q) None None None)) d
  = Some (text_hitb q d).
Proof.
  intros Hq Hp. unfold build_filters. rewrite (truthy_nonempty q Hq).
  unfold matches. cbn. rewrite (parse_regex_plain q Hp). cbn.
  rewrite !andb_true_r, !orb_false_r, orb_assoc. reflexivity.
Qed.

Lemma text_hitb_spec (q : text) (d : dict) (p : Product) :
  view d = Some p -> text_hitb q d = true <-> text_hit q d.
Proof.
  intros Hv. destruct (view_fields d p Hv) as (Ht & Hd & _ & _ & Hg & _).
  unfold text_hitb.
  rewrite (get_str_candidates _ _ _ Ht), (get_str_candidates _ _ _ Hd).
  cbn [existsb str_search]. rewrite !orb_false_r, !orb_true_iff.
  rewrite !regex_search_literal, (get_strs_member "tags" q (tags p) d Hg).
  unfold text_hit. split.
  - intros H. exists p. split; [exact Hv | tauto].
  - intros (p' & Hv' & H). rewrite Hv in Hv'. injection Hv' as <-. tauto.
Qed.

Lemma is_product_filter (f : dict -> bool) (docs : list dict) :
  Forall is_product docs -> Forall is_product (List.filter f docs).
Proof.
  induction 1 as [|d docs Hd _ IH]; simpl; [constructor |].
  destruct (f d); [constructor; assumption | assumption].
Qed.

(** The shape every "returns exactly" statement below has. *)
Lemma list_products_exactly (w : world) (d : database)
    (category q : option text) (featured : option bool)
    (min_price max_price : option Q) (f : dict -> bool) (P : dict -> Prop) :
  db w = Some d -> db_fault d = None ->
  Forall is_product (collection d "product") ->
  (forall x, matches (BDoc (build_filters category q featured min_price max_price)) x
             = Some (f x)) ->
  (forall x p, view x = Some p -> f x = true <-> P x) ->
  exists kept ps,
    keeps P (collection d "product") kept /\
    returned_as kept ps /\
    fst (list_products category q featured min_price max_price w) = Ok ps.
Proof.
  intros Hdb Hf Hall Hm Hspec.
  rewrite (list_products_healthy w d) by assumption.
  rewrite (select_filter _ f) by (intros x; apply Hm).
  destruct (products_of_valid (List.filter f (collection d "product")))
    as (ps & Hps & Hr); [apply is_product_filter; exact Hall |].
  exists (List.filter f (collection d "product")), ps.
  split; [| split; assumption].
  apply keeps_filter. intros x Hx.
  rewrite List.Forall_forall in Hall. destruct (Hall x Hx) as [p Hp].
  apply (Hspec x p Hp).
Qed.

Lemma price_query_matches (lo hi : option Q) (d : dict) :
  matches (BDoc (build_filters None None None lo hi)) d
  = Some (price_hitb lo hi d).
Proof.
  unfold price_hitb, matches. destruct lo, hi; cbn; rewrite ?andb_true_r; reflexivity.
Qed.

Lemma price_hitb_spec (lo hi : option Q) (d : dict) (p : Product) :
  view d = Some p -> price_hitb lo hi d = true <-> price_hit lo hi d.
Proof.
  intros Hv. destruct (view_fields d p Hv) as (_ & _ & Hpr & _).
  unfold price_hitb. rewrite (get_num_candidates _ _ _ Hpr).
  assert (Hin : (match lo with Some a => existsb (num_ge a) [BNum (price p)] | None => true end
                 && match hi with Some b => existsb (num_le b) [BNum (price p)] | None => true end)
                = true <-> in_range lo hi (price p)).
  { unfold in_range. rewrite andb_true_iff.
    destruct lo, hi; cbn [existsb num_ge num_le];
      rewrite ?orb_false_r, ?Qle_bool_iff; tauto. }
  rewrite Hin. unfold price_hit. split.
  - intros H. exists p. auto.
  - intros (p' & Hv' & H). rewrite Hv in Hv'. injection Hv' as <-. exact H.
Qed.

Lemma is_productb_spec (docs : list dict) :
  forallb is_productb docs = true -> Forall is_product docs.
Proof.
  induction docs as [|d docs IH]; simpl; [constructor |].
  rewrite andb_true_iff. intros [Hd Hr]. constructor; [| apply IH; exact Hr].
  unfold is_productb in Hd. unfold is_product.
  destruct (view d) as [p|]; [exists p; reflexivity | discriminate].
Qed.

Lemma keeps_nothing {A : Type} (P : A -> Prop) (l kept : list A) :
  Forall (fun x => ~ P x) l -> keeps P l kept -> kept = [].
Proof.
  intros Hall Hk. induction Hk as [|x l kept Hx _ IH|x l kept _ _ IH].
  - reflexivity.
  - apply List.Forall_inv in Hall. contradiction.
  - apply IH. eapply List.Forall_inv_tail. exact Hall.
Qed.

Lemma keeps_In {A : Type} (P : A -> Prop) (l kept : list A) (x : A) :
  keeps P l kept -> In x l -> P x -> In x kept.
Proof.
  induction 1 as [|y l kept Hy _ IH|y l kept Hy _ IH]; simpl.
  - tauto.
  - intros [->|Hin] HP; [left; reflexivity | right; auto].
  - intros [->|Hin] HP; [contradiction | auto].
Qed.

Lemma returned_as_In (docs : list dict) (ps : list Product) (d : dict)
    (p : Product) :
  returned_as docs ps -> In d docs -> view d = Some p -> In p ps.
Proof.
  induction 1 as [|d' p' docs ps Hv _ IH]; simpl; [tauto |].
  intros [->|Hin] Hp; [left; congruence | right; auto].
Qed.

Lemma seeded_collection : collection seeded_database "product" = seeded_catalog.
Proof. reflexivity. Qed.

Lemma seeded_catalog_valid : Forall is_product (collection seeded_database "product").
Proof. rewrite seeded_collection. apply is_productb_spec. vm_compute. reflexivity. Qed.

(** ** The claims *)

(** C1 (amended). For every stored collection of product documents and
    every non-empty free-text query [q] that contains no regular-expression
    operator (all other filter parameters absent), [list_products] returns
    exactly the documents whose title contains [q] as a case-insensitive
    substring, or whose description does, or whose tags contain [q] as an
    exact member.  Two characters are the same, case aside, when the
    server's engine says so; within ASCII that is A-Z folded onto a-z. *)
Theorem list_products_text_query (w : world) (d : database) (q : text) :
  db w = Some d -> db_fault d = None ->
  Forall is_product (collection d "product") ->
  q <> ""%text -> plain q = true ->
  exists kept ps,
    keeps (text_hit q) (collection d "product") kept /\
    returned_as kept ps /\
    fst (list_products None (Some q) None None None w) = Ok ps.
Proof.
  intros Hdb Hf Hall Hq Hp.
  apply (list_products_exactly w d None (Some q) None None None (text_hitb q));
    try assumption.
  - intros x. apply text_query_matches; assumption.
  - intros x p Hv. exact (text_hitb_spec q x p Hv).
Qed.

(** C2. For every stored collection of product documents and every
    [min_price] and [max_price], each given or not (all other filter
    parameters absent), [list_products] returns exactly the documents whose
    price [p] satisfies [min_price <= p] and [p <= max_price], only the
    given bounds constraining; so a document whose price lies in the range,
    a bound included, is among the products returned. *)
Theorem list_products_price_range (w : world) (d : database)
    (min_price max_price : option Q) :
  db w = Some d -> db_fault d = None ->
  Forall is_product (collection d "product") ->
  exists kept ps,
    keeps (price_hit min_price max_price) (collection d "product") kept /\
    returned_as kept ps /\
    fst (list_products None None None min_price max_price w) = Ok ps /\
    (forall x p, In x (collection d "product") -> view x = Some p ->
                 in_range min_price max_price (price p) -> In p ps) /\
    (forall a : Q, in_range (Some a) (Some a) a).
Proof.
  intros Hdb Hf Hall.
  destruct (list_products_exactly w d None None None min_price max_price
              (price_hitb min_price max_price) (price_hit min_price max_price))
    as (kept & ps & Hk & Hr & Hres); try assumption.
  - intros x. apply price_query_matches.
  - intros x p Hv. exact (price_hitb_spec min_price max_price x p Hv).
  - exists kept, ps. repeat split; try assumption.
    + intros x p Hx Hv Hin. apply (returned_as_In kept ps x p Hr); [| exact Hv].
      apply (keeps_In _ _ _ _ Hk Hx). exists p. auto.
    + apply Qle_refl.
    + apply Qle_refl.
Qed.

Lemma select_all (docs : list dict) : select [] docs = Some docs.
Proof.
  unfold select. simpl. f_equal.
  induction docs as [|d docs IH]; simpl; [reflexivity | rewrite IH; reflexivity].
Qed.

Lemma count_documents_healthy (w : world) (d : database) (coll : string) :
  db w = Some d -> db_fault d = None ->
  count_documents coll [] w =
    (Ok (length (collection d coll)),
     set_db d (log_call (CountDocuments coll []) w)).
Proof.
  intros Hdb Hf. unfold count_documents, round_trip. rewrite Hdb, Hf.
  rewrite select_all. reflexivity.
Qed.

Lemma collection_after_insert (coll : string) (docs : list dict) (d : database) :
  collection (bump_id (set_collection coll docs d)) coll = docs.
Proof. unfold collection. simpl. rewrite lookup_insert_eq. reflexivity. Qed.

Lemma seeding_loop (ps : list dict) (w : world) (d : database) :
  db w = Some d -> db_fault d = None ->
  exists d',
    for_each ps insert_product w =
      (Ok tt, {| db := Some d'; environ := environ w;
                 calls := calls w ++ map (InsertOne "product") ps |}) /\
    db_fault d' = None /\
    collection d' "product" = collection d "product" ++ number (db_next_id d) ps.
Proof.
  revert w d. induction ps as [|p ps IH]; intros w d Hdb Hf.
  - exists d. simpl. rewrite !app_nil_r. unfold ret.
    destruct w as [dbw env cs]. simpl in *. subst dbw. auto.
  - set (d1 := bump_id (set_collection "product"
                 (collection d "product" ++ [with_id (db_next_id d) p]) d)).
    set (w1 := set_db d1 (log_call (InsertOne "product" p) w)).
    destruct (IH w1 d1 eq_refl Hf) as (d' & Hrun & Hf' & Hcoll).
    exists d'. split; [| split; [exact Hf' |]].
    + cbn [for_each]. unfold bind at 1. unfold insert_product at 1.
      unfold bind at 1, create_document, round_trip. rewrite Hdb, Hf.
      cbn beta iota. unfold ret at 1. fold d1. fold w1. rewrite Hrun.
      simpl. rewrite <- app_assoc. reflexivity.
    + rewrite Hcoll. unfold d1. rewrite collection_after_insert.
      simpl. rewrite <- app_assoc. reflexivity.
Qed.

(** C3. On a configured, healthy store whose product collection is empty,
    [seed_products] inserts exactly the 5 demo documents, each under a
    store-assigned identity, and returns the count 5; on a non-empty
    collection it inserts nothing, leaves the store as it was and returns
    the current number of documents. *)
Theorem seed_products_spec (w : world) (d : database) :
  db w = Some d -> db_fault d = None ->
  (collection d "product" = [] ->
   exists w' d',
     seed_products w = (Ok {| message := "Catalog seeded"; count := 5 |}, w') /\
     db w' = Some d' /\
     length (collection d' "product") = 5%nat /\
     map (dpop "_id") (collection d' "product") = demo_products /\
     calls w' = calls w ++ CountDocuments "product" []
                           :: map (InsertOne "product") demo_products) /\
  (collection d "product" <> [] ->
   exists w',
     seed_products w =
       (Ok {| message := "Catalog already seeded";
              count := length (collection d "product") |}, w') /\
     db w' = db w /\
     calls w' = calls w ++ [CountDocuments "product" []]).
Proof.
  intros Hdb Hf. split; intros Hc.
  - set (w0 := set_db d (log_call (CountDocuments "product" []) w)).
    destruct (seeding_loop demo_products w0 d eq_refl Hf) as (d' & Hrun & _ & Hcoll).
    eexists. exists d'.
    unfold seed_products. rewrite (bind_ok read_db _ w w (db w) eq_refl), Hdb.
    rewrite (bind_ok _ _ _ _ _ (count_documents_healthy w d "product" Hdb Hf)).
    rewrite Hc. cbn [length Nat.ltb Nat.leb].
    fold w0. rewrite (bind_ok _ _ _ _ _ Hrun).
    split; [reflexivity |]. split; [reflexivity |].
    rewrite Hcoll, Hc. cbn [app].
    split; [reflexivity |]. split; [reflexivity |].
    simpl. rewrite <- app_assoc. reflexivity.
  - eexists.
    unfold seed_products. rewrite (bind_ok read_db _ w w (db w) eq_refl), Hdb.
    rewrite (bind_ok _ _ _ _ _ (count_documents_healthy w d "product" Hdb Hf)).
    destruct (collection d "product") as [|x l]; [contradiction |].
    cbn [length Nat.ltb Nat.leb].
    split; [reflexivity |]. split; reflexivity.
Qed.

(** ** Exact-match clauses *)

Lemma all_pred_true {A : Type} (l : list (option (A -> bool)))
    (g : A -> bool) (a : A) (x : option (A -> bool)) :
  all_pred l = Some g -> g a = true -> In x l ->
  exists h, x = Some h /\ h a = true.
Proof.
  revert g. induction l as [|f l IH]; simpl; [tauto |].
  intros g. destruct f as [f|]; [| discriminate].
  destruct (all_pred l) as [g'|]; [| discriminate]. simpl.
  intros [= <-] Hg. apply andb_true_iff in Hg. destruct Hg as [Hf Hg'].
  intros [<-|Hin]; [exists f; auto | exact (IH g' eq_refl Hg' Hin)].
Qed.

(** A document that satisfies a query satisfies each of its field
    clauses. *)
Lemma matches_clause (flt : dict) (d : dict) (k : string) (c : bson) :
  matches (BDoc flt) d = Some true -> In (k, c) flt ->
  String.eqb k "$or" = false -> String.prefix "$" k = false ->
  option_map (fun g => g (dget k d)) (match_field c) = Some true.
Proof.
  unfold matches. cbn [compile]. intros H Hin E1 E2.
  destruct (all_pred (map (eval_clause compile) flt)) as [g|] eqn:Hg;
    [| discriminate].
  injection H as H.
  destruct (all_pred_true _ g d (eval_clause compile (k, c)) Hg H) as (h & Hh & Hd).
  - apply (in_map (eval_clause compile)) in Hin. exact Hin.
  - unfold eval_clause in Hh. rewrite E1, E2 in Hh.
    destruct (match_field c) as [f|]; [| discriminate].
    injection Hh as <-. simpl. rewrite Hd. reflexivity.
Qed.

Lemma dget_In (k : string) (v : bson) (d : dict) :
  dget k d = Some v -> In (k, v) d.
Proof.
  induction d as [|[k' v'] d IH]; simpl; [discriminate |].
  destruct (String.eqb k' k) eqn:E.
  - apply String.eqb_eq in E. intros [= ->]. left. congruence.
  - intros H. right. apply IH. exact H.
Qed.

Lemma build_filters_category (v : text) (q : option text)
    (featured : option bool) (min_price max_price : option Q) :
  v <> ""%text ->
  dget "category" (build_filters (Some v) q featured min_price max_price)
  = Some (BStr v).
Proof.
  intros Hv. unfold build_filters. rewrite (truthy_nonempty v Hv).
  destruct q as [t|]; [destruct (truthy (Some t)) |];
    destruct featured, min_price, max_price; reflexivity.
Qed.

Lemma build_filters_featured (category q : option text) (b : bool)
    (min_price max_price : option Q) :
  dget "featured" (build_filters category q (Some b) min_price max_price)
  = Some (BBool b).
Proof.
  unfold build_filters.
  destruct category as [v|]; [destruct (truthy (Some v)) |];
    (destruct q as [t|]; [destruct (truthy (Some t)) |]);
    destruct min_price, max_price; reflexivity.
Qed.

Lemma category_clause (d : dict) (p : Product) (v : text) :
  view d = Some p ->
  option_map (fun g => g (dget "category" d)) (match_field (BStr v)) = Some true ->
  category p = v.
Proof.
  intros Hv. destruct (view_fields d p Hv) as (_ & _ & _ & Hc & _).
  cbn [match_field option_map]. rewrite (get_str_candidates _ _ _ Hc).
  cbn [existsb bson_eqb]. rewrite orb_false_r. intros [= H].
  apply text_eqb_eq in H. congruence.
Qed.

Lemma featured_clause (d : dict) (p : Product) (b : bool) :
  view d = Some p ->
  option_map (fun g => g (dget "featured" d)) (match_field (BBool b)) = Some true ->
  featured p = b.
Proof.
  intros Hv. destruct (view_fields d p Hv) as (_ & _ & _ & _ & _ & Hfe).
  cbn [match_field option_map]. rewrite (get_bool_candidates _ _ _ Hfe).
  cbn [existsb bson_eqb]. rewrite orb_false_r. intros [= H].
  apply Bool.eqb_prop in H. congruence.
Qed.

Lemma returned_as_Forall (P : Product -> Prop) (docs : list dict)
    (ps : list Product) :
  returned_as docs ps ->
  (forall d p, In d docs -> view d = Some p -> P p) ->
  Forall P ps.
Proof.
  induction 1 as [|d p docs ps Hv _ IH]; intros H; constructor.
  - apply (H d p); [left; reflexivity | exact Hv].
  - apply IH. intros d' p' Hin Hv'. apply (H d' p'); [right; exact Hin | exact Hv'].
Qed.

Lemma returned_as_length (docs : list dict) (ps : list Product) :
  returned_as docs ps -> length ps = length docs.
Proof. intros H. symmetry. exact (Forall2_length _ _ _ H). Qed.

Lemma In_take {A : Type} (n : nat) (l : list A) (x : A) :
  In x (take n l) -> In x l.
Proof.
  revert n. induction l as [|y l IH]; intros [|n]; simpl; try tauto.
  intros [->|H]; [left; reflexivity | right; exact (IH n H)].
Qed.

(** C4. For every stored collection, [featured_products] returns at most
    6 items, and every returned item has [featured = true]. *)
Theorem featured_products_bound (w : world) (ps : list Product) :
  fst (featured_products w) = Ok ps ->
  (length ps <= 6)%nat /\ Forall (fun p => featured p = true) ps.
Proof.
  intros H. destruct (featured_products_ok w ps H) as (d & found & _ & _ & Hs & Hp).
  apply products_of_ok in Hp. split.
  - rewrite (returned_as_length _ _ Hp), length_take. lia.
  - apply (returned_as_Forall _ _ _ Hp). intros x p Hin Hv.
    apply In_take in Hin. apply select_sound in Hs.
    rewrite List.Forall_forall in Hs. destruct (Hs x Hin) as [_ Hm].
    apply (featured_clause x p true Hv).
    apply (matches_clause [("featured", BBool true)]); try reflexivity.
    + exact Hm.
    + left. reflexivity.
Qed.

(** On a healthy store of product documents the featured handler does
    answer. *)
Lemma featured_products_returns (w : world) (d : database) :
  db w = Some d -> db_fault d = None ->
  Forall is_product (collection d "product") ->
  exists ps, fst (featured_products w) = Ok ps.
Proof.
  intros Hdb Hf Hall. rewrite (featured_products_healthy w d) by assumption.
  destruct (select _ _) as [found|] eqn:Hs.
  - destruct (products_of_valid (take 6 found)) as (ps & Hps & _).
    + apply select_sound in Hs. rewrite List.Forall_forall in Hs, Hall.
      apply List.Forall_forall. intros x Hx. apply Hall.
      apply In_take in Hx. exact (proj1 (Hs x Hx)).
    + exists ps. exact Hps.
  - unfold select in Hs. cbn in Hs. discriminate.
Qed.

(** The filter of [list_products] is decided on every document when [q]
    is absent or free of operators. *)
Lemma build_filters_decided (category q : option text)
    (featured : option bool) (min_price max_price : option Q) (d : dict) :
  (forall t, q = Some t -> plain t = true) ->
  exists b,
    matches (BDoc (build_filters category q featured min_price max_price)) d
    = Some b.
Proof.
  intros Hq. unfold build_filters.
  destruct category as [v|]; [destruct (truthy (Some v)) |];
    (destruct q as [t|];
     [ destruct (truthy (Some t)); [pose proof (parse_regex_plain t (Hq t eq_refl)) as Hp |] |]);
    destruct featured, min_price, max_price; unfold matches; cbn;
    rewrite ?Hp; cbn; eexists; reflexivity.
Qed.

Lemma select_decided (flt : dict) (docs : list dict) :
  (forall d, exists b, matches (BDoc flt) d = Some b) ->
  exists found, select flt docs = Some found.
Proof.
  intros H. unfold select. destruct (H []) as [b Hb]. unfold matches in Hb.
  destruct (compile (BDoc flt)) as [g|]; [| discriminate].
  eexists. reflexivity.
Qed.

(** On a healthy store of product documents [list_products] does answer,
    for every choice of the parameters with [q] absent or free of
    operators. *)
Lemma list_products_returns (w : world) (d : database)
    (category q : option text) (featured : option bool)
    (min_price max_price : option Q) :
  db w = Some d -> db_fault d = None ->
  Forall is_product (collection d "product") ->
  (forall t, q = Some t -> plain t = true) ->
  exists ps, fst (list_products category q featured min_price max_price w) = Ok ps.
Proof.
  intros Hdb Hf Hall Hq. rewrite (list_products_healthy w d) by assumption.
  destruct (select_decided (build_filters category q featured min_price max_price)
              (collection d "product")) as [found Hs].
  { intros x. apply build_filters_decided. exact Hq. }
  rewrite Hs. destruct (products_of_valid found) as (ps & Hps & _).
  - apply select_sound in Hs. rewrite List.Forall_forall in Hs, Hall.
    apply List.Forall_forall. intros x Hx. apply Hall. exact (proj1 (Hs x Hx)).
  - exists ps. exact Hps.
Qed.

(** C5 (amended). For every stored collection and every given non-empty
    category value, every document returned by [list_products] has a
    category field exactly equal to the given value; likewise when the
    featured parameter is given (true or false), every returned document's
    featured field exactly equals it. *)
Theorem list_products_exact_match (w : world) (category_ q : option text)
    (featured_ : option bool) (min_price max_price : option Q)
    (ps : list Product) :
  fst (list_products category_ q featured_ min_price max_price w) = Ok ps ->
  (forall v, category_ = Some v -> v <> ""%text ->
             Forall (fun p => category p = v) ps) /\
  (forall b, featured_ = Some b -> Forall (fun p => featured p = b) ps).
Proof.
  intros H.
  destruct (list_products_ok w _ _ _ _ _ ps H) as (d & found & _ & _ & Hs & Hp).
  apply products_of_ok in Hp. apply select_sound in Hs.
  rewrite List.Forall_forall in Hs. split.
  - intros v -> Hv. apply (returned_as_Forall _ _ _ Hp). intros x p Hin Hview.
    destruct (Hs x Hin) as [_ Hm].
    apply (category_clause x p v Hview).
    apply (matches_clause _ x "category" (BStr v) Hm); try reflexivity.
    apply dget_In. apply build_filters_category. exact Hv.
  - intros b ->. apply (returned_as_Forall _ _ _ Hp). intros x p Hin Hview.
    destruct (Hs x Hin) as [_ Hm].
    apply (featured_clause x p b Hview).
    apply (matches_clause _ x "featured" (BBool b) Hm); try reflexivity.
    apply dget_In. apply build_filters_featured.
Qed.

(** C6. When the database handle is absent, each of [seed_products],
    [list_products] and [featured_products] raises the HTTP exception with
    status 500 and the detail "Database not configured", and the world is
    as before: no round trip to the store was made. *)
Theorem unconfigured_store (w : world) :
  db w = None ->
  seed_products w = (Raise (HTTPException 500 "Database not configured"), w) /\
  (forall category q featured min_price max_price,
     list_products category q featured min_price max_price w
     = (Raise (HTTPException 500 "Database not configured"), w)) /\
  featured_products w = (Raise (HTTPException 500 "Database not configured"), w).
Proof.
  intros Hdb. repeat split; intros;
    unfold seed_products, list_products, list_products_with, featured_products,
      featured_products_with;
    rewrite (bind_ok read_db _ w w (db w) eq_refl), Hdb; reflexivity.
Qed.

Lemma slice_to_length (n : nat) (s : text) :
  text_length (slice_to n s) = Nat.min n (text_length s).
Proof.
  revert s. induction n as [|n IH]; intros [|c s]; simpl; try reflexivity.
  rewrite IH. reflexivity.
Qed.

Lemma slice_to_prefix (n : nat) (s : text) :
  exists rest, s = (slice_to n s ++ rest)%text.
Proof.
  revert s. induction n as [|n IH]; intros s.
  - exists s. destruct s; reflexivity.
  - destruct s as [|c s]; [exists TNil; reflexivity |].
    destruct (IH s) as [rest Hrest]. exists rest. simpl. rewrite <- Hrest.
    reflexivity.
Qed.

Ltac run_test_database :=
  unfold test_database, test_database_body, try_except, bind, in_world,
    read_db, assign, modify, getenv, hasattr_name, getattr_name,
    list_collection_names, round_trip, get, ret, raise;
  cbn [db db_name db_fault fst snd log_call set_db environ calls
       set_database set_database_url set_database_name set_connection_status
       set_collections collections database_ str].

(** C7. [test_database] never propagates an exception: for every world,
    and so for every behaviour of the store, it returns its diagnostic
    response.  An exception raised while the collections are listed, or
    earlier inside the outer [try], is reported in the [database] entry
    as the first 50 characters of its text (all of it when it has fewer),
    and the [collections] entry holds at most 10 names. *)
Theorem test_database_total (w : world) :
  exists r w',
    test_database w = (Ok r, w') /\
    (length (collections r) <= 10)%nat /\
    match db w with
    | None => database_ r = "⚠️  Available but not initialized"%text
    | Some d =>
        match db_name d, db_fault d with
        | AttrRaises e, _ =>
            database_ r = ("❌ Error: " ++ slice_to 50 e)%text
        | _, Some e =>
            database_ r = ("⚠️  Connected but Error: " ++ slice_to 50 e)%text
        | _, None => database_ r = "✅ Connected & Working"%text
        end
    end /\
    (forall e : text,
       text_length (slice_to 50 e) = Nat.min 50 (text_length e) /\
       exists rest, e = (slice_to 50 e ++ rest)%text).
Proof.
  assert (Hcut : forall e : text,
             text_length (slice_to 50 e) = Nat.min 50 (text_length e) /\
             exists rest, e = (slice_to 50 e ++ rest)%text)
    by (intros e; split; [apply slice_to_length | apply slice_to_prefix]).
  destruct w as [[[nm fault nid colls]|] env cs].
  - destruct nm as [|name|e], fault as [e'|]; run_test_database;
      eexists; eexists;
      (split; [reflexivity |]);
      (split; [| split; [reflexivity | exact Hcut]]);
      cbn [collections set_database set_database_url set_database_name
           set_connection_status set_collections initial_response];
      rewrite ?length_take; cbn [length]; lia.
  - run_test_database. eexists; eexists.
    split; [reflexivity |]. split; [simpl; lia |].
    split; [reflexivity | exact Hcut].
Qed.

Lemma view_read (d : dict) (p : Product) :
  view d = Some p -> read_Product (dpop "_id" d) = Some p.
Proof.
  unfold view. destruct (read_Product (dpop "_id" d)) as [p'|]; [| discriminate].
  destruct (well_formed p'); [| discriminate]. intros [= <-]. reflexivity.
Qed.









(** ** The store under the reading handlers *)

Lemma only_reads_refl (w : world) : only_reads w w.
Proof.
  split; [reflexivity |]. exists []. rewrite app_nil_r. split; reflexivity.
Qed.

Lemma round_trip_reads {A : Type} (op : store_op) (f : database -> outcome A)
    (w : world) :
  is_read op = true ->
  only_reads w (snd (round_trip op (fun d => (f d, d)) w)).
Proof.
  intros Hop. unfold round_trip.
  destruct (db w) as [d|] eqn:Hdb; [| apply only_reads_refl].
  destruct (db_fault d); simpl.
  - split; [reflexivity |]. exists [op]. simpl. rewrite Hop. split; reflexivity.
  - split; [symmetry; exact Hdb |]. exists [op]. simpl. rewrite Hop.
    split; reflexivity.
Qed.

Lemma get_documents_reads (coll : string) (flt : dict) (limit : option nat)
    (w : world) :
  only_reads w (snd (get_documents coll flt limit w)).
Proof. unfold get_documents. apply round_trip_reads. reflexivity. Qed.

Lemma bind_to_products_state (c : prog world (list dict)) (w : world) :
  snd (bind c (to_products_with new_Product) w) = snd (c w).
Proof.
  unfold bind. destruct (c w) as [[docs|e|] w']; [| reflexivity | reflexivity].
  rewrite to_products_run. reflexivity.
Qed.

Lemma list_products_reads (category q : option text) (featured : option bool)
    (min_price max_price : option Q) (w : world) :
  only_reads w (snd (list_products category q featured min_price max_price w)).
Proof.
  unfold list_products, list_products_with. rewrite (bind_ok read_db _ w w (db w) eq_refl).
  destruct (db w); [| apply only_reads_refl].
  rewrite bind_to_products_state. apply get_documents_reads.
Qed.

Lemma featured_products_reads (w : world) :
  only_reads w (snd (featured_products w)).
Proof.
  unfold featured_products, featured_products_with. rewrite (bind_ok read_db _ w w (db w) eq_refl).
  destruct (db w); [| apply only_reads_refl].
  rewrite bind_to_products_state. apply get_documents_reads.
Qed.

Lemma test_database_reads (w : world) : only_reads w (snd (test_database w)).
Proof.
  destruct w as [[[nm fault nid colls]|] env cs].
  - destruct nm as [|name|e], fault as [e'|]; run_test_database;
      (split; [reflexivity |]); cbn [calls];
      first [ exists [ListCollectionNames]; split; reflexivity
            | exists []; rewrite app_nil_r; split; reflexivity ].
  - run_test_database. apply only_reads_refl.
Qed.

(** C9. [list_products], [featured_products] and [test_database] leave the
    database, and so the product collection, as it was, for every input
    and every state of the store, and every round trip they make is a
    read; the seed handler is the one that writes. *)
Theorem readers_leave_store (w : world) :
  (forall category q featured min_price max_price,
     only_reads w (snd (list_products category q featured min_price max_price w))) /\
  only_reads w (snd (featured_products w)) /\
  only_reads w (snd (test_database w)) /\
  db (snd (seed_products fresh)) <> db fresh.
Proof.
  split; [intros; apply list_products_reads |].
  split; [apply featured_products_reads |].
  split; [apply test_database_reads |].
  intros H.
  apply (f_equal (fun o => match o with Some d => db_next_id d | None => 0%N end)) in H.
  vm_compute in H. discriminate.
Qed.

(** C10. An empty-string [category] or an empty-string [q] leaves
    [list_products] as it is without that parameter: the clause is not put
    into the filter.  [featured = False] is a real filter: the clause
    [featured: False] is in the filter, it is not there when the parameter
    is absent, and on the seeded catalog the two answers differ. *)
Theorem list_products_falsy_parameters :
  (forall q featured min_price max_price,
     build_filters (Some ""%text) q featured min_price max_price
     = build_filters None q featured min_price max_price /\
     forall w,
       list_products (Some ""%text) q featured min_price max_price w
       = list_products None q featured min_price max_price w) /\
  (forall category featured min_price max_price,
     build_filters category (Some ""%text) featured min_price max_price
     = build_filters category None featured min_price max_price /\
     forall w,
       list_products category (Some ""%text) featured min_price max_price w
       = list_products category None featured min_price max_price w) /\
  (forall category q min_price max_price,
     dget "featured" (build_filters category q (Some false) min_price max_price)
     = Some (BBool false) /\
     dget "featured" (build_filters category q None min_price max_price) = None) /\
  (exists some_ all_,
     fst (list_products None None (Some false) None None seeded) = Ok some_ /\
     fst (list_products None None None None None seeded) = Ok all_ /\
     length some_ = 3%nat /\ length all_ = 5%nat /\
     Forall (fun p => featured p = false) some_).
Proof.
  split; [| split; [| split]].
  - intros q f lo hi. split; [reflexivity |]. intros w. reflexivity.
  - intros c f lo hi.
    assert (E : build_filters c (Some ""%text) f lo hi = build_filters c None f lo hi)
      by reflexivity.
    split; [exact E |]. intros w. unfold list_products, list_products_with. rewrite E. reflexivity.
  - intros c q lo hi. split; [apply build_filters_featured |].
    unfold build_filters.
    destruct c as [v|]; [destruct (truthy (Some v)) |];
      (destruct q as [t|]; [destruct (truthy (Some t)) |]);
      destruct lo, hi; reflexivity.
  - eexists. eexists. split; [vm_compute; reflexivity |].
    split; [vm_compute; reflexivity |].
    split; [reflexivity |]. split; [reflexivity |].
    repeat constructor.
Qed.

(** ** Beyond the claims: the filter as a whole *)

Lemma filter_matches (category_ q : option text) (featured_ : option bool)
    (lo hi : option Q) (d : dict) :
  (forall t, q = Some t -> plain t = true) ->
  matches (BDoc (build_filters category_ q featured_ lo hi)) d
  = Some (filter_hitb category_ q featured_ lo hi d).
Proof.
  intros Hq. unfold build_filters, filter_hitb, price_hitb, text_hitb, matches.
  destruct category_ as [v|]; [destruct (truthy (Some v)) |];
    (destruct q as [t|];
     [ destruct (truthy (Some t));
       [pose proof (parse_regex_plain t (Hq t eq_refl)) as Hp |] |]);
    destruct featured_, lo, hi; cbn; rewrite ?Hp; cbn;
    rewrite ?andb_true_r, ?orb_false_r, ?andb_true_l, ?andb_assoc, ?orb_assoc;
    reflexivity.
Qed.

Lemma truthy_iff (v : text) : truthy (Some v) = true <-> v <> ""%text.
Proof.
  unfold truthy. destruct (text_eqb v "") eqn:E; simpl.
  - apply text_eqb_eq in E. split; [discriminate | contradiction].
  - apply text_eqb_neq in E. tauto.
Qed.

Lemma category_hitb_spec (category_ : option text) (d : dict) (p : Product) :
  view d = Some p ->
  match category_ with
  | Some v =>
      if truthy category_
      then existsb (bson_eqb (BStr v)) (candidates (dget "category" d))
      else true
  | None => true
  end = true <->
  (forall v, category_ = Some v -> v <> ""%text -> category p = v).
Proof.
  intros Hv. destruct (view_fields d p Hv) as (_ & _ & _ & Hc & _).
  rewrite (get_str_candidates _ _ _ Hc).
  destruct category_ as [v|]; [| split; [discriminate | reflexivity]].
  destruct (truthy (Some v)) eqn:Ht.
  - apply truthy_iff in Ht. cbn [existsb bson_eqb]. rewrite orb_false_r, text_eqb_eq.
    split.
    + intros E v' [= <-] _. congruence.
    + intros H. symmetry. apply (H v); [reflexivity | exact Ht].
  - split; [| reflexivity]. intros _ v' [= <-] Hne.
    apply truthy_iff in Hne. congruence.
Qed.

Lemma featured_hitb_spec (featured_ : option bool) (d : dict) (p : Product) :
  view d = Some p ->
  match featured_ with
  | Some b => existsb (bson_eqb (BBool b)) (candidates (dget "featured" d))
  | None => true
  end = true <->
  (forall b, featured_ = Some b -> featured p = b).
Proof.
  intros Hv. destruct (view_fields d p Hv) as (_ & _ & _ & _ & _ & Hfe).
  rewrite (get_bool_candidates _ _ _ Hfe).
  destruct featured_ as [b|]; [| split; [discriminate | reflexivity]].
  cbn [existsb bson_eqb]. rewrite orb_false_r. split.
  - intros E b' [= <-]. apply Bool.eqb_prop in E. congruence.
  - intros H. rewrite (H b eq_refl). apply Bool.eqb_reflx.
Qed.

Lemma text_part_spec (q : option text) (d : dict) (p : Product) :
  view d = Some p ->
  match q with
  | Some t => if truthy q then text_hitb t d else true
  | None => true
  end = true <->
  (forall t, q = Some t -> t <> ""%text ->
     contains_ci (title p) t \/ contains_ci (description p) t \/ In t (tags p)).
Proof.
  intros Hv. destruct q as [t|]; [| split; [discriminate | reflexivity]].
  destruct (truthy (Some t)) eqn:Ht.
  - rewrite (text_hitb_spec t d p Hv). apply truthy_iff in Ht. split.
    + intros (p' & Hv' & H) t' [= <-] _. rewrite Hv in Hv'.
      injection Hv' as <-. exact H.
    + intros H. exists p. split; [exact Hv | apply (H t eq_refl Ht)].
  - split; [| reflexivity]. intros _ t' [= <-] Hne.
    apply truthy_iff in Hne. congruence.
Qed.

Lemma filter_hitb_spec (category_ q : option text) (featured_ : option bool)
    (lo hi : option Q) (d : dict) (p : Product) :
  view d = Some p ->
  filter_hitb category_ q featured_ lo hi d = true
  <-> filter_hit category_ q featured_ lo hi d.
Proof.
  intros Hv. unfold filter_hitb. rewrite !andb_true_iff.
  rewrite (category_hitb_spec category_ d p Hv),
          (featured_hitb_spec featured_ d p Hv),
          (price_hitb_spec lo hi d p Hv),
          (text_part_spec q d p Hv).
  unfold filter_hit, price_hit. split.
  - intros (((Hc & Hf) & (p' & Hv' & Hr)) & Ht).
    rewrite Hv in Hv'. injection Hv' as <-. exists p. auto.
  - intros (p' & Hv' & Hc & Hf & Hr & Ht).
    rewrite Hv in Hv'. injection Hv' as <-.
    repeat split; try assumption. exists p. auto.
Qed.

(** X1. On a healthy store of product documents, and with [q] absent or
    free of regular-expression operators, [list_products] returns, in
    stored order, exactly the documents that meet all the given criteria
    at once: the category (when non-empty), the featured flag, the price
    range and the free-text search (when non-empty). *)
Theorem list_products_all_filters (w : world) (d : database)
    (category_ q : option text) (featured_ : option bool)
    (min_price max_price : option Q) :
  db w = Some d -> db_fault d = None ->
  Forall is_product (collection d "product") ->
  (forall t, q = Some t -> plain t = true) ->
  exists kept ps,
    keeps (filter_hit category_ q featured_ min_price max_price)
      (collection d "product") kept /\
    returned_as kept ps /\
    fst (list_products category_ q featured_ min_price max_price w) = Ok ps.
Proof.
  intros Hdb Hf Hall Hq.
  apply (list_products_exactly w d category_ q featured_ min_price max_price
           (filter_hitb category_ q featured_ min_price max_price));
    try assumption.
  - intros x. apply filter_matches. exact Hq.
  - intros x p Hv. exact (filter_hitb_spec _ _ _ _ _ x p Hv).
Qed.

(** X2. An empty price range is not an error: with [max_price] below
    [min_price], [list_products] answers with the empty list, whatever the
    other parameters. *)
Theorem list_products_empty_range (w : world) (d : database)
    (category_ q : option text) (featured_ : option bool) (a b : Q) :
  db w = Some d -> db_fault d = None ->
  Forall is_product (collection d "product") ->
  (forall t, q = Some t -> plain t = true) ->
  (b < a)%Q ->
  fst (list_products category_ q featured_ (Some a) (Some b) w) = Ok [].
Proof.
  intros Hdb Hf Hall Hq Hlt.
  destruct (list_products_exactly w d category_ q featured_ (Some a) (Some b)
              (filter_hitb category_ q featured_ (Some a) (Some b))
              (filter_hit category_ q featured_ (Some a) (Some b)))
    as (kept & ps & Hk & Hr & Hres); try assumption.
  - intros x. apply filter_matches. exact Hq.
  - intros x p Hv. exact (filter_hitb_spec _ _ _ _ _ x p Hv).
  - assert (kept = []) as ->.
    { apply (keeps_nothing _ _ _) in Hk; [exact Hk |].
      apply List.Forall_forall. intros x _ (p & _ & _ & _ & [Hlo Hhi] & _).
      apply (Qlt_not_le _ _ Hlt). exact (Qle_trans _ _ _ Hlo Hhi). }
    inversion Hr; subst. exact Hres.
Qed.

Lemma products_of_take (n : nat) (docs : list dict) (ps : list Product) :
  products_of docs = Ok ps -> products_of (take n docs) = Ok (take n ps).
Proof.
  revert n ps. induction docs as [|d docs IH]; intros n ps; simpl.
  - intros [= <-]. destruct n; reflexivity.
  - destruct (view d) as [p|] eqn:Hv; [| discriminate].
    destruct (products_of docs) as [ps'| |]; try discriminate.
    intros [= <-]. destruct n as [|n]; [reflexivity |].
    simpl. rewrite Hv, (IH n ps' eq_refl). reflexivity.
Qed.

(** X3. The featured endpoint is the listing with [featured = True], cut
    to its first 6 products: whenever that listing answers with [ps],
    [featured_products] answers with the first 6 of [ps]. *)
Theorem featured_products_is_listing (w : world) (ps : list Product) :
  fst (list_products None None (Some true) None None w) = Ok ps ->
  fst (featured_products w) = Ok (take 6 ps).
Proof.
  intros H.
  destruct (list_products_ok w _ _ _ _ _ ps H) as (d & found & Hdb & Hf & Hs & Hp).
  rewrite (featured_products_healthy w d Hdb Hf).
  change (build_filters None None (Some true) None None)
    with [("featured", BBool true)] in Hs.
  rewrite Hs. apply products_of_take. exact Hp.
Qed.

Lemma products_of_rejects (docs : list dict) :
  Exists (fun d => view d = None) docs ->
  products_of docs = Raise (Exception "ValidationError").
Proof.
  induction 1 as [d docs Hd | d docs _ IH]; simpl.
  - rewrite Hd. reflexivity.
  - destruct (view d); [| reflexivity]. rewrite IH. reflexivity.
Qed.

Lemma select_complete (flt : dict) (docs found : list dict) (x : dict) :
  select flt docs = Some found -> In x docs ->
  matches (BDoc flt) x = Some true -> In x found.
Proof.
  unfold select, matches.
  destruct (compile (BDoc flt)) as [g|]; [| discriminate].
  intros [= <-] Hin [= Hx]. apply List.filter_In. auto.
Qed.

Lemma returned_as_fit (docs : list dict) (ps : list Product) (x : dict) :
  returned_as docs ps -> In x docs -> view x <> None.
Proof.
  induction 1 as [|d p docs ps Hv _ IH]; simpl; [tauto |].
  intros [->|Hin]; [congruence | exact (IH Hin)].
Qed.

(** X4. The listing is all or nothing: when a stored document that the
    filter selects does not fit the Product shape, [list_products] returns
    no list at all, not the list of the documents that do fit. *)
Theorem list_products_rejects_misfit (w : world) (d : database)
    (category_ q : option text) (featured_ : option bool)
    (min_price max_price : option Q) (x : dict) :
  db w = Some d ->
  In x (collection d "product") ->
  matches (BDoc (build_filters category_ q featured_ min_price max_price)) x
  = Some true ->
  view x = None ->
  forall ps,
    fst (list_products category_ q featured_ min_price max_price w) <> Ok ps.
Proof.
  intros Hdb Hin Hm Hv ps H.
  destruct (list_products_ok w _ _ _ _ _ ps H) as (d' & found & Hdb' & _ & Hs & Hp).
  rewrite Hdb in Hdb'. injection Hdb' as <-.
  apply products_of_ok in Hp.
  apply (returned_as_fit found ps x Hp); [| exact Hv].
  exact (select_complete _ _ _ x Hs Hin Hm).
Qed.

(** X5. A configured store that fails is not reported as an unconfigured
    one: [seed_products], [list_products] and [featured_products] let the
    exception of their first round trip through, and nothing is written. *)
Theorem failing_store_propagates (w : world) (d : database) (e : text) :
  db w = Some d -> db_fault d = Some e ->
  seed_products w
  = (Raise (Exception e), log_call (CountDocuments "product" []) w) /\
  (forall category_ q featured_ min_price max_price,
     list_products category_ q featured_ min_price max_price w
     = (Raise (Exception e),
        log_call (Find "product"
                    (build_filters category_ q featured_ min_price max_price)
                    None) w)) /\
  featured_products w
  = (Raise (Exception e),
     log_call (Find "product" [("featured", BBool true)] (Some 6%nat)) w).
Proof.
  intros Hdb Hf. repeat split; intros;
    unfold seed_products, list_products, list_products_with, featured_products,
      featured_products_with;
    rewrite (bind_ok read_db _ w w (db w) eq_refl), Hdb;
    apply bind_raise;
    unfold count_documents, get_documents, round_trip; rewrite Hdb, Hf;
    reflexivity.
Qed.

(** X6. On a healthy store whose product collection is empty or missing,
    every listing is the empty list, for every choice of the parameters
    with [q] absent or free of regular-expression operators, and so is
    the featured list. *)
Theorem empty_catalog_lists_nothing (w : world) (d : database) :
  db w = Some d -> db_fault d = None -> collection d "product" = [] ->
  (forall category_ q featured_ min_price max_price,
     (forall t, q = Some t -> plain t = true) ->
     fst (list_products category_ q featured_ min_price max_price w) = Ok []) /\
  fst (featured_products w) = Ok [].
Proof.
  intros Hdb Hf Hc. split.
  - intros c q f lo hi Hq.
    rewrite (list_products_healthy w d) by assumption. rewrite Hc.
    destruct (select_decided (build_filters c q f lo hi) [])
      as [found Hs].
    { intros x. apply build_filters_decided. exact Hq. }
    rewrite Hs. unfold select in Hs.
    destruct (compile _); [| discriminate]. injection Hs as <-. reflexivity.
  - rewrite (featured_products_healthy w d) by assumption. rewrite Hc. reflexivity.
Qed.

(** ** Beyond the claims: seeding *)

Lemma seeding_loop_frame (ps : list dict) (w : world) (d : database) :
  db w = Some d -> db_fault d = None ->
  exists d',
    for_each ps insert_product w =
      (Ok tt, {| db := Some d'; environ := environ w;
                 calls := calls w ++ map (InsertOne "product") ps |}) /\
    db_fault d' = None /\ db_name d' = db_name d /\
    collection d' "product" = collection d "product" ++ number (db_next_id d) ps /\
    (forall coll, coll <> "product" ->
                  db_collections d' !! coll = db_collections d !! coll).
Proof.
  revert w d. induction ps as [|p ps IH]; intros w d Hdb Hf.
  - exists d. simpl. rewrite !app_nil_r. unfold ret.
    destruct w as [dbw env cs]. simpl in *. subst dbw. auto.
  - set (d1 := bump_id (set_collection "product"
                 (collection d "product" ++ [with_id (db_next_id d) p]) d)).
    set (w1 := set_db d1 (log_call (InsertOne "product" p) w)).
    destruct (IH w1 d1 eq_refl Hf) as (d' & Hrun & Hf' & Hn & Hcoll & Hfr).
    exists d'. split; [| split; [exact Hf' | split; [exact Hn | split]]].
    + cbn [for_each]. unfold bind at 1. unfold insert_product at 1.
      unfold bind at 1, create_document, round_trip. rewrite Hdb, Hf.
      cbn beta iota. unfold ret at 1. fold d1. fold w1. rewrite Hrun.
      simpl. rewrite <- app_assoc. reflexivity.
    + rewrite Hcoll. unfold d1. rewrite collection_after_insert.
      simpl. rewrite <- app_assoc. reflexivity.
    + intros coll Hne. rewrite (Hfr coll Hne). unfold d1. simpl.
      apply lookup_insert_ne. congruence.
Qed.

(** What one call of the seed handler does to a healthy store. *)
Lemma seed_products_run (w : world) (d : database) :
  db w = Some d -> db_fault d = None ->
  exists r d',
    seed_products w = (Ok r, {| db := Some d'; environ := environ w;
                                calls := calls (snd (seed_products w)) |}) /\
    db_fault d' = None /\ db_name d' = db_name d /\
    (forall coll, coll <> "product" ->
                  db_collections d' !! coll = db_collections d !! coll) /\
    match collection d "product" with
    | [] => collection d' "product" = number (db_next_id d) demo_products
    | _ :: _ => d' = d
    end.
Proof.
  intros Hdb Hf.
  set (w0 := set_db d (log_call (CountDocuments "product" []) w)).
  assert (Hstep : seed_products w =
    if (0 <? length (collection d "product"))%nat
    then ret {| message := "Catalog already seeded";
                count := length (collection d "product") |} w0
    else bind (for_each demo_products insert_product)
           (fun _ => ret {| message := "Catalog seeded";
                            count := length demo_products |}) w0).
  { unfold seed_products. rewrite (bind_ok read_db _ w w (db w) eq_refl), Hdb.
    rewrite (bind_ok _ _ _ _ _ (count_documents_healthy w d "product" Hdb Hf)).
    fold w0. destruct (0 <? length (collection d "product"))%nat; reflexivity. }
  destruct (collection d "product") as [|x l] eqn:Hc.
  - destruct (seeding_loop_frame demo_products w0 d eq_refl Hf)
      as (d' & Hrun & Hf' & Hn & Hcoll & Hfr).
    rewrite Hstep. cbn [length Nat.ltb Nat.leb].
    rewrite (bind_ok _ _ _ _ _ Hrun).
    eexists. exists d'. split; [reflexivity |].
    rewrite Hc in Hcoll. auto.
  - rewrite Hstep. cbn [length Nat.ltb Nat.leb].
    eexists. exists d. split; [reflexivity |]. auto.
Qed.

(** X7. Seeding touches the product collection only: after
    [seed_products] on a healthy store, every other collection, and the
    name of the database, are as before. *)
Theorem seed_products_frame (w : world) (d d' : database) :
  db w = Some d -> db_fault d = None ->
  db (snd (seed_products w)) = Some d' ->
  db_name d' = db_name d /\
  forall coll, coll <> "product" ->
               db_collections d' !! coll = db_collections d !! coll.
Proof.
  intros Hdb Hf H.
  destruct (seed_products_run w d Hdb Hf) as (r & d1 & Hrun & _ & Hn & Hfr & _).
  rewrite Hrun in H. simpl in H. injection H as <-. auto.
Qed.

(** X8. Seeding is idempotent on a healthy store: a second call of
    [seed_products] right after the first finds the catalog seeded,
    reports a positive count and leaves the database as the first call
    left it. *)
Theorem seed_products_twice (w : world) (d : database) :
  db w = Some d -> db_fault d = None ->
  exists n,
    fst (seed_products (snd (seed_products w)))
    = Ok {| message := "Catalog already seeded"; count := n |} /\
    (0 < n)%nat /\
    db (snd (seed_products (snd (seed_products w)))) = db (snd (seed_products w)).
Proof.
  intros Hdb Hf.
  destruct (seed_products_run w d Hdb Hf) as (r & d1 & Hrun & Hf1 & _ & _ & Hc).
  set (w1 := snd (seed_products w)) in *.
  assert (Hdb1 : db w1 = Some d1) by (unfold w1; rewrite Hrun; reflexivity).
  assert (Hne : exists x l, collection d1 "product" = x :: l).
  { destruct (collection d "product") as [|x l] eqn:Hd.
    - rewrite Hc. eexists. eexists. reflexivity.
    - subst d1. eauto. }
  destruct Hne as (x & l & Hne).
  destruct (seed_products_run w1 d1 Hdb1 Hf1) as (r' & d2 & Hrun2 & _ & _ & _ & Hc2).
  rewrite Hne in Hc2. subst d2.
  exists (length (collection d1 "product")).
  assert (Hr : seed_products w1 =
            (Ok {| message := "Catalog already seeded";
                   count := length (collection d1 "product") |},
             set_db d1 (log_call (CountDocuments "product" []) w1))).
  { unfold seed_products. rewrite (bind_ok read_db _ w1 w1 (db w1) eq_refl), Hdb1.
    rewrite (bind_ok _ _ _ _ _ (count_documents_healthy w1 d1 "product" Hdb1 Hf1)).
    rewrite Hne. reflexivity. }
  rewrite Hr. simpl. rewrite Hne, Hdb1. simpl. repeat split. lia.
Qed.

Lemma demo_products_as_stored (n : N) :
  products_of (number n demo_products) = Ok demo_catalog /\
  select [("featured", BBool true)] (number n demo_products)
  = Some (take 2 (number n demo_products)).
Proof. split; vm_compute; reflexivity. Qed.

(** X9. The demo data fits the schema the listing validates against:
    after [seed_products] on a healthy store with an empty product
    collection, the listing without parameters returns the five demo
    products in the order of the source, and the featured endpoint the
    first two of them. *)
Theorem seed_then_list (w : world) (d : database) :
  db w = Some d -> db_fault d = None -> collection d "product" = [] ->
  fst (list_products None None None None None (snd (seed_products w)))
  = Ok demo_catalog /\
  fst (featured_products (snd (seed_products w))) = Ok (take 2 demo_catalog) /\
  length demo_catalog = 5%nat /\
  map title demo_catalog
  = ["Velvet Rose Eau de Parfum"; "Gentleman Grooming Kit"; "Ceramic Wave Vase";
     "Lavender Silk Body Lotion"; "Matte Stone Candle Holder"]%text.
Proof.
  intros Hdb Hf Hc.
  destruct (seed_products_run w d Hdb Hf) as (r & d1 & Hrun & Hf1 & _ & _ & Hc1).
  rewrite Hc in Hc1.
  set (w1 := snd (seed_products w)) in *.
  assert (Hdb1 : db w1 = Some d1) by (unfold w1; rewrite Hrun; reflexivity).
  destruct (demo_products_as_stored (db_next_id d)) as [Hall Hfeat].
  split; [| split; [| split; reflexivity]].
  - rewrite (list_products_healthy w1 d1 _ _ _ _ _ Hdb1 Hf1), Hc1.
    change (build_filters None None None None None) with (@nil (string * bson)).
    rewrite select_all. exact Hall.
  - rewrite (featured_products_healthy w1 d1 Hdb1 Hf1), Hc1, Hfeat.
    change (take 2 demo_catalog) with (take 6 (take 2 demo_catalog)).
    apply (products_of_take 6). apply (products_of_take 2). exact Hall.
Qed.

(** ** Beyond the claims: identities *)

Lemma dpop_idem (k : string) (d : dict) : dpop k (dpop k d) = dpop k d.
Proof.
  induction d as [|[k' v] d IH]; simpl; [reflexivity |].
  destruct (String.eqb k' k) eqn:E; simpl; [exact IH |].
  rewrite E, IH. reflexivity.
Qed.

Lemma view_strip (d : dict) : view (dpop "_id" d) = view d.
Proof. unfold view. rewrite dpop_idem. reflexivity. Qed.

Lemma matches_strip (category_ q : option text) (featured_ : option bool)
    (lo hi : option Q) (d : dict) :
  matches (BDoc (build_filters category_ q featured_ lo hi)) (dpop "_id" d)
  = matches (BDoc (build_filters category_ q featured_ lo hi)) d.
Proof.
  unfold build_filters.
  destruct category_ as [v|]; [destruct (truthy (Some v)) |];
    (destruct q as [t|]; [destruct (truthy (Some t)) |]);
    destruct featured_, lo, hi; unfold matches; cbn;
    try (destruct (parse_regex t); cbn);
    rewrite ?dget_dpop_ne by discriminate; reflexivity.
Qed.

Lemma select_strip (flt : dict) (docs : list dict) :
  (forall d, matches (BDoc flt) (dpop "_id" d) = matches (BDoc flt) d) ->
  select flt (map (dpop "_id") docs)
  = option_map (map (dpop "_id")) (select flt docs).
Proof.
  unfold select, matches. intros H.
  destruct (compile (BDoc flt)) as [g|]; [| reflexivity].
  simpl. f_equal. induction docs as [|d docs IH]; simpl; [reflexivity |].
  specialize (H d). injection H as ->.
  destruct (g d); simpl; rewrite IH; reflexivity.
Qed.

Lemma products_of_strip (docs : list dict) :
  products_of (map (dpop "_id") docs) = products_of docs.
Proof.
  induction docs as [|d docs IH]; [reflexivity |].
  cbn [map products_of]. rewrite view_strip, IH. reflexivity.
Qed.

Lemma answer_strip (flt : dict) (limit : option nat) (docs : list dict) :
  (forall d, matches (BDoc flt) (dpop "_id" d) = matches (BDoc flt) d) ->
  answer flt limit (map (dpop "_id") docs) = answer flt limit docs.
Proof.
  intros H. unfold answer. rewrite (select_strip flt docs H).
  destruct (select flt docs) as [found|]; [| reflexivity]. cbn [option_map].
  destruct limit as [n|]; [| apply products_of_strip].
  rewrite List.firstn_map. apply products_of_strip.
Qed.

(** X10. The answers do not depend on the identities the store assigned:
    on two healthy stores whose product documents agree once [_id] is
    removed, [list_products] gives the same answer for the same
    parameters, and so does [featured_products]. *)
Theorem answers_ignore_ids (w1 w2 : world) (d1 d2 : database) :
  db w1 = Some d1 -> db_fault d1 = None ->
  db w2 = Some d2 -> db_fault d2 = None ->
  map (dpop "_id") (collection d1 "product")
  = map (dpop "_id") (collection d2 "product") ->
  (forall category_ q featured_ min_price max_price,
     fst (list_products category_ q featured_ min_price max_price w1)
     = fst (list_products category_ q featured_ min_price max_price w2)) /\
  fst (featured_products w1) = fst (featured_products w2).
Proof.
  intros Hdb1 Hf1 Hdb2 Hf2 Heq. split.
  - intros c q f lo hi.
    rewrite (list_products_healthy w1 d1), (list_products_healthy w2 d2)
      by assumption.
    change (answer (build_filters c q f lo hi) None (collection d1 "product")
            = answer (build_filters c q f lo hi) None (collection d2 "product")).
    rewrite <- (answer_strip _ None (collection d1 "product"))
      by (intros x; apply matches_strip).
    rewrite <- (answer_strip _ None (collection d2 "product"))
      by (intros x; apply matches_strip).
    rewrite Heq. reflexivity.
  - rewrite (featured_products_healthy w1 d1), (featured_products_healthy w2 d2)
      by assumption.
    change (answer [("featured", BBool true)] (Some 6%nat) (collection d1 "product")
            = answer [("featured", BBool true)] (Some 6%nat) (collection d2 "product")).
    rewrite <- (answer_strip _ (Some 6%nat) (collection d1 "product"))
      by (intros x; apply (matches_strip None None (Some true) None None)).
    rewrite <- (answer_strip _ (Some 6%nat) (collection d2 "product"))
      by (intros x; apply (matches_strip None None (Some true) None None)).
    rewrite Heq. reflexivity.
Qed.

(** ** Beyond the claims: the diagnostics *)

(** X11. With a handle whose name can be asked for, [test_database]
    makes exactly one round trip, the listing of the collections, and,
    whether or not that listing fails, reports the connection as
    "Connected", the name of the database, and whether [DATABASE_URL] is
    set to a non-empty value; the collections are the first 10 names on
    success and none on failure. *)
Theorem test_database_connected (w : world) (d : database) :
  db w = Some d -> (forall e, db_name d <> AttrRaises e) ->
  exists r w',
    test_database w = (Ok r, w') /\
    db w' = db w /\ calls w' = calls w ++ [ListCollectionNames] /\
    connection_status r = "Connected"%text /\
    database_name r
    = Some (match db_name d with Attr n => n | _ => "✅ Connected"%text end) /\
    database_url r
    = Some (if truthy (environ w !! "DATABASE_URL")
            then "✅ Set"%text else "❌ Not Set"%text) /\
    collections r
    = match db_fault d with
      | None => take 10 (map fst (map_to_list (db_collections d)))
      | Some _ => []
      end.
Proof.
  destruct w as [dbw env cs]. simpl. intros -> Hname.
  destruct d as [nm fault nid colls]. simpl in Hname.
  destruct nm as [|name|e]; [| | contradiction (Hname e eq_refl)];
    destruct fault as [e'|]; run_test_database;
    eexists; eexists; (split; [reflexivity |]); repeat split.
Qed.

(** X12. Without a handle [test_database] answers from what it knows: no
    round trip is made, the environment is not consulted, and the response
    is the initial one with the database line "Available but not
    initialized". *)
Theorem test_database_unconfigured (w : world) :
  db w = None ->
  test_database w
  = (Ok {| backend := "✅ Running";
           database_ := "⚠️  Available but not initialized";
           database_url := None;
           database_name := None;
           connection_status := "Not Connected";
           collections := [] |}, w).
Proof.
  destruct w as [dbw env cs]. simpl. intros ->. reflexivity.
Qed.

(** X13. The database line [test_database] starts from, "Not Available",
    is never the one it reports: every path through the handler overwrites
    it; and the backend line is always "Running". *)
Theorem test_database_never_initial (w w' : world) (r : diagnostics) :
  test_database w = (Ok r, w') ->
  database_ r <> "❌ Not Available"%text /\ backend r = "✅ Running"%text.
Proof.
  destruct w as [[[nm fault nid colls]|] env cs].
  - destruct nm as [|name|e], fault as [e'|]; run_test_database;
      intros [= <- _]; (split; [| reflexivity]); simpl; discriminate.
  - run_test_database. intros [= <- _]. split; [discriminate | reflexivity].
Qed.

(** ** Beyond the claims: filters only narrow *)

Lemma select_sublist (flt : dict) (docs found : list dict) :
  select flt docs = Some found -> sublist found docs.
Proof.
  unfold select. destruct (compile (BDoc flt)) as [g|]; [| discriminate].
  intros [= <-]. induction docs as [|d docs IH]; simpl; [constructor |].
  destruct (g d); [apply sublist_skip | apply sublist_cons]; exact IH.
Qed.

Lemma products_of_sublist (l1 l2 : list dict) (p1 p2 : list Product) :
  sublist l1 l2 ->
  products_of l1 = Ok p1 -> products_of l2 = Ok p2 -> sublist p1 p2.
Proof.
  intros H. revert p1 p2.
  induction H as [|x l1 l2 _ IH|x l1 l2 _ IH]; intros p1 p2; simpl.
  - intros [= <-] _. apply sublist_nil_l.
  - destruct (view x) as [p|]; [| discriminate].
    destruct (products_of l1) as [q1| |]; try discriminate.
    destruct (products_of l2) as [q2| |]; try discriminate.
    intros [= <-] [= <-]. apply sublist_skip. apply IH; reflexivity.
  - destruct (view x) as [p|]; [| discriminate].
    destruct (products_of l2) as [q2| |]; try discriminate.
    intros H1 [= <-]. apply sublist_cons. apply IH; [exact H1 | reflexivity].
Qed.

(** X14. Filters only narrow: whatever [list_products] returns for some
    parameters, and whatever [featured_products] returns, is a
    subsequence, in the same order, of what [list_products] returns
    without parameters. *)
Theorem listings_are_sublists (w : world) (all_ : list Product) :
  fst (list_products None None None None None w) = Ok all_ ->
  (forall category_ q featured_ min_price max_price ps,
     fst (list_products category_ q featured_ min_price max_price w) = Ok ps ->
     sublist ps all_) /\
  (forall ps, fst (featured_products w) = Ok ps -> sublist ps all_).
Proof.
  intros Hall.
  destruct (list_products_ok w _ _ _ _ _ all_ Hall)
    as (d & docs & Hdb & Hf & Hs & Hp).
  change (build_filters None None None None None) with (@nil (string * bson)) in Hs.
  rewrite select_all in Hs. injection Hs as <-.
  split.
  - intros c q f lo hi ps H.
    destruct (list_products_ok w _ _ _ _ _ ps H)
      as (d' & found & Hdb' & _ & Hs' & Hp').
    rewrite Hdb in Hdb'. injection Hdb' as <-.
    exact (products_of_sublist _ _ _ _ (select_sublist _ _ _ Hs') Hp' Hp).
  - intros ps H.
    destruct (featured_products_ok w ps H) as (d' & found & Hdb' & _ & Hs' & Hp').
    rewrite Hdb in Hdb'. injection Hdb' as <-.
    apply (products_of_sublist (take 6 found) (collection d "product"));
      [| exact Hp' | exact Hp].
    transitivity found; [apply sublist_take | exact (select_sublist _ _ _ Hs')].
Qed.

(** X15. The count [seed_products] reports is the size of the product
    collection when it returns, on either path: 5 after it seeded an empty
    collection, the number of documents already there otherwise. *)
Theorem seed_products_count (w : world) (d : database) :
  db w = Some d -> db_fault d = None ->
  exists r d',
    fst (seed_products w) = Ok r /\
    db (snd (seed_products w)) = Some d' /\
    count r = length (collection d' "product") /\
    (0 < count r)%nat.
Proof.
  intros Hdb Hf.
  set (w0 := set_db d (log_call (CountDocuments "product" []) w)).
  unfold seed_products. rewrite (bind_ok read_db _ w w (db w) eq_refl), Hdb.
  rewrite (bind_ok _ _ _ _ _ (count_documents_healthy w d "product" Hdb Hf)).
  fold w0. destruct (collection d "product") as [|x l] eqn:Hc.
  - destruct (seeding_loop_frame demo_products w0 d eq_refl Hf)
      as (d' & Hrun & _ & _ & Hcoll & _).
    cbn [length Nat.ltb Nat.leb]. rewrite (bind_ok _ _ _ _ _ Hrun).
    eexists. exists d'. split; [reflexivity |]. split; [reflexivity |].
    rewrite Hcoll, Hc. simpl. split; [reflexivity | lia].
  - cbn [length Nat.ltb Nat.leb].
    eexists. exists d. split; [reflexivity |]. split; [reflexivity |].
    rewrite Hc. simpl. split; [reflexivity | lia].
Qed.

End Engine.

(** ** The theorems at work *)

Lemma list_products_text_query_witness :
  exists kept ps,
    keeps (text_hit e_acute "É") (collection cafe_database "product") kept /\
    returned_as kept ps /\
    fst (list_products e_acute None (Some "É"%text) None None None cafe) = Ok ps /\
    map title ps = ["Café"]%text.
Proof.
  destruct (list_products_text_query e_acute cafe cafe_database "É"%text)
    as (kept & ps & Hk & Hr & Hres).
  - reflexivity.
  - reflexivity.
  - apply is_productb_spec. vm_compute. reflexivity.
  - discriminate.
  - reflexivity.
  - exists kept, ps. repeat split; try assumption.
    vm_compute in Hres. injection Hres as <-. reflexivity.
Defined.

(** C1, as stated, fails: [q] is handed to the server as a regular
    expression.  On the seeded catalog the query [V.l] returns the product
    titled "Velvet Rose Eau de Parfum", though no document contains the
    three characters [V.l] in its title or description or has them as a
    tag. *)
Lemma list_products_text_query_pattern :
  db seeded = Some seeded_database /\ db_fault seeded_database = None /\
  Forall is_product (collection seeded_database "product") /\
  "V.l"%text <> ""%text /\
  (exists p, fst (list_products ascii_only None (Some "V.l"%text) None None None seeded) = Ok [p]
             /\ title p = "Velvet Rose Eau de Parfum"%text) /\
  ~ (exists kept ps,
       keeps (text_hit ascii_only "V.l") (collection seeded_database "product") kept /\
       returned_as kept ps /\
       fst (list_products ascii_only None (Some "V.l"%text) None None None seeded) = Ok ps).
Proof.
  split; [reflexivity |]. split; [reflexivity |].
  split; [exact seeded_catalog_valid |]. split; [discriminate |]. split.
  - eexists. split; vm_compute; reflexivity.
  - intros (kept & ps & Hk & Hr & Hres).
    assert (Hnone : kept = []).
    { apply (keeps_nothing (text_hit ascii_only "V.l") _ _) in Hk; [exact Hk |].
      pose proof seeded_catalog_valid as Hv.
      rewrite List.Forall_forall in Hv. apply List.Forall_forall.
      intros x Hx. destruct (Hv x Hx) as [p Hp].
      rewrite <- (text_hitb_spec ascii_only "V.l" x p Hp).
      rewrite seeded_collection in Hx.
      assert (Hb : forallb (fun y => negb (text_hitb ascii_only "V.l" y)) seeded_catalog = true)
        by (vm_compute; reflexivity).
      rewrite forallb_forall in Hb. specialize (Hb x Hx).
      destruct (text_hitb ascii_only "V.l" x); [discriminate | discriminate]. }
    subst kept. inversion Hr; subst. vm_compute in Hres. discriminate.
Qed.

Lemma list_products_price_range_witness :
  exists kept ps,
    keeps (price_hit (Some 39.0%Q) (Some 39.0%Q))
      (collection seeded_database "product") kept /\
    returned_as kept ps /\
    fst (list_products ascii_only None None None (Some 39.0%Q) (Some 39.0%Q) seeded) = Ok ps /\
    (forall x p, In x (collection seeded_database "product") -> view x = Some p ->
                 in_range (Some 39.0%Q) (Some 39.0%Q) (price p) -> In p ps) /\
    (forall a : Q, in_range (Some a) (Some a) a).
Proof.
  apply (list_products_price_range ascii_only seeded seeded_database).
  - reflexivity.
  - reflexivity.
  - exact seeded_catalog_valid.
Defined.

Lemma seed_products_spec_witness :
  (exists w' d',
     seed_products ascii_only fresh = (Ok {| message := "Catalog seeded"; count := 5 |}, w') /\
     db w' = Some d' /\
     length (collection d' "product") = 5%nat /\
     map (dpop "_id") (collection d' "product") = demo_products /\
     calls w' = calls fresh ++ CountDocuments "product" []
                               :: map (InsertOne "product") demo_products) /\
  (exists w',
     seed_products ascii_only seeded =
       (Ok {| message := "Catalog already seeded";
              count := length (collection seeded_database "product") |}, w') /\
     db w' = db seeded /\
     calls w' = calls seeded ++ [CountDocuments "product" []]).
Proof.
  split.
  - apply (seed_products_spec ascii_only fresh fresh_database); reflexivity.
  - apply (seed_products_spec ascii_only seeded seeded_database);
      [reflexivity | reflexivity | discriminate].
Defined.

Lemma featured_products_bound_witness :
  exists ps,
    fst (featured_products ascii_only seeded) = Ok ps /\
    (length ps <= 6)%nat /\ Forall (fun p => featured p = true) ps.
Proof.
  eexists. split; [vm_compute; reflexivity |].
  apply (featured_products_bound ascii_only seeded). vm_compute. reflexivity.
Defined.

Lemma list_products_exact_match_witness :
  exists ps,
    fst (list_products ascii_only (Some "home"%text) None (Some false) None None seeded) = Ok ps /\
    length ps = 2%nat /\
    Forall (fun p => category p = "home"%text) ps /\
    Forall (fun p => featured p = false) ps.
Proof.
  eexists. split; [vm_compute; reflexivity |]. split; [reflexivity |].
  destruct (list_products_exact_match ascii_only seeded (Some "home"%text) None (Some false)
              None None _ ltac:(vm_compute; reflexivity)) as [Hc Hf].
  split.
  - apply (Hc "home"%text); [reflexivity | discriminate].
  - apply (Hf false). reflexivity.
Defined.

(** C5, as stated, fails for the given value [""]: the handler tests the
    truth value of [category], so an empty string puts no clause into the
    filter, and on the seeded catalog all five products come back, none of
    them with the category [""]. *)
Lemma list_products_empty_category :
  exists ps,
    fst (list_products ascii_only (Some ""%text) None None None None seeded) = Ok ps /\
    length ps = 5%nat /\
    Forall (fun p => category p <> ""%text) ps /\
    ~ Forall (fun p => category p = ""%text) ps.
Proof.
  eexists. split; [vm_compute; reflexivity |]. split; [reflexivity |]. split.
  - repeat constructor; discriminate.
  - intros H. apply List.Forall_inv in H. discriminate.
Qed.

Lemma unconfigured_store_witness :
  seed_products ascii_only unconfigured
  = (Raise (HTTPException 500 "Database not configured"), unconfigured) /\
  (forall category q featured min_price max_price,
     list_products ascii_only category q featured min_price max_price unconfigured
     = (Raise (HTTPException 500 "Database not configured"), unconfigured)) /\
  featured_products ascii_only unconfigured
  = (Raise (HTTPException 500 "Database not configured"), unconfigured) /\
  calls unconfigured = [].
Proof.
  destruct (unconfigured_store ascii_only unconfigured eq_refl) as (H1 & H2 & H3).
  repeat split; assumption || reflexivity.
Defined.


Lemma list_products_all_filters_witness :
  exists kept ps,
    keeps (filter_hit ascii_only (Some "home"%text) (Some "VASE"%text) (Some false)
             (Some 30%Q) (Some 39%Q))
      (collection seeded_database "product") kept /\
    returned_as kept ps /\
    fst (list_products ascii_only (Some "home"%text) (Some "VASE"%text) (Some false)
           (Some 30%Q) (Some 39%Q) seeded) = Ok ps.
Proof.
  apply (list_products_all_filters ascii_only seeded seeded_database).
  - reflexivity.
  - reflexivity.
  - exact seeded_catalog_valid.
  - intros t [= <-]. reflexivity.
Defined.

Lemma list_products_empty_range_witness :
  fst (list_products ascii_only None None None (Some 40%Q) (Some 30%Q) seeded) = Ok [].
Proof.
  apply (list_products_empty_range ascii_only seeded seeded_database).
  - reflexivity.
  - reflexivity.
  - exact seeded_catalog_valid.
  - discriminate.
  - reflexivity.
Defined.

Lemma featured_products_is_listing_witness :
  exists ps,
    fst (list_products ascii_only None None (Some true) None None seeded) = Ok ps /\
    length ps = 2%nat /\
    fst (featured_products ascii_only seeded) = Ok (take 6 ps).
Proof.
  eexists. split; [vm_compute; reflexivity |]. split; [reflexivity |].
  apply (featured_products_is_listing ascii_only). vm_compute. reflexivity.
Defined.

Lemma list_products_rejects_misfit_witness :
  (forall ps, fst (list_products ascii_only None None None None None stray) <> Ok ps) /\
  fst (list_products ascii_only None None None None None stray)
  = Raise (Exception "ValidationError") /\
  exists ps, fst (list_products ascii_only (Some "home"%text) None None None None stray) = Ok ps
             /\ length ps = 2%nat.
Proof.
  split; [| split].
  - apply (list_products_rejects_misfit ascii_only stray stray_database None None None None None
             [("_id", BOid 5); ("title", BStr "stray")]).
    + reflexivity.
    + vm_compute. do 5 right. left. reflexivity.
    + reflexivity.
    + reflexivity.
  - vm_compute. reflexivity.
  - eexists. split; [vm_compute; reflexivity | reflexivity].
Defined.

Lemma failing_store_propagates_witness :
  fst (seed_products ascii_only faulty) = Raise (Exception "connection refused") /\
  fst (list_products ascii_only None None None None None faulty)
  = Raise (Exception "connection refused") /\
  fst (featured_products ascii_only faulty) = Raise (Exception "connection refused") /\
  db (snd (seed_products ascii_only faulty)) = db faulty.
Proof.
  destruct (failing_store_propagates ascii_only faulty faulty_database "connection refused"%text
              eq_refl eq_refl) as (H1 & H2 & H3).
  rewrite H1, (H2 None None None None None), H3. repeat split; reflexivity.
Defined.

Lemma empty_catalog_lists_nothing_witness :
  (forall category_ q featured_ min_price max_price,
     (forall t, q = Some t -> plain t = true) ->
     fst (list_products ascii_only category_ q featured_ min_price max_price fresh)
     = Ok []) /\
  fst (featured_products ascii_only fresh) = Ok [].
Proof.
  apply (empty_catalog_lists_nothing ascii_only fresh fresh_database); reflexivity.
Defined.

Lemma seed_products_frame_witness :
  exists d',
    db (snd (seed_products ascii_only fresh)) = Some d' /\
    db_name d' = db_name fresh_database /\
    forall coll, coll <> "product" ->
                 db_collections d' !! coll = db_collections fresh_database !! coll.
Proof.
  eexists. split; [vm_compute; reflexivity |].
  apply (seed_products_frame ascii_only fresh fresh_database);
    [reflexivity | reflexivity | vm_compute; reflexivity].
Defined.

Lemma seed_products_twice_witness :
  exists n,
    fst (seed_products ascii_only (snd (seed_products ascii_only fresh)))
    = Ok {| message := "Catalog already seeded"; count := n |} /\
    (0 < n)%nat /\
    db (snd (seed_products ascii_only (snd (seed_products ascii_only fresh))))
    = db (snd (seed_products ascii_only fresh)).
Proof.
  apply (seed_products_twice ascii_only fresh fresh_database); reflexivity.
Defined.

Lemma seed_then_list_witness :
  fst (list_products ascii_only None None None None None (snd (seed_products ascii_only fresh)))
  = Ok demo_catalog /\
  fst (featured_products ascii_only (snd (seed_products ascii_only fresh))) = Ok (take 2 demo_catalog) /\
  length demo_catalog = 5%nat /\
  map title demo_catalog
  = ["Velvet Rose Eau de Parfum"; "Gentleman Grooming Kit"; "Ceramic Wave Vase";
     "Lavender Silk Body Lotion"; "Matte Stone Candle Holder"]%text.
Proof.
  apply (seed_then_list ascii_only fresh fresh_database); reflexivity.
Defined.

Lemma answers_ignore_ids_witness :
  collection seeded_database "product" <> collection renumbered_database "product" /\
  (forall category_ q featured_ min_price max_price,
     fst (list_products ascii_only category_ q featured_ min_price max_price seeded)
     = fst (list_products ascii_only category_ q featured_ min_price max_price renumbered)) /\
  fst (featured_products ascii_only seeded) = fst (featured_products ascii_only renumbered).
Proof.
  split; [vm_compute; discriminate |].
  apply (answers_ignore_ids ascii_only seeded renumbered seeded_database renumbered_database);
    reflexivity.
Defined.

Lemma test_database_connected_witness :
  exists r w',
    test_database faulty = (Ok r, w') /\
    db w' = db faulty /\ calls w' = calls faulty ++ [ListCollectionNames] /\
    connection_status r = "Connected"%text /\
    database_name r = Some "marketplace"%text /\
    database_url r = Some "✅ Set"%text /\
    collections r = [] /\
    database_ r = "⚠️  Connected but Error: connection refused"%text.
Proof.
  destruct (test_database_connected faulty faulty_database eq_refl)
    as (r & w' & Hrun & Hdb & Hcalls & Hcs & Hn & Hu & Hc); [discriminate |].
  exists r, w'. repeat split; try assumption.
  vm_compute in Hrun. injection Hrun as <- _. reflexivity.
Defined.

Lemma test_database_unconfigured_witness :
  test_database unconfigured
  = (Ok {| backend := "✅ Running";
           database_ := "⚠️  Available but not initialized";
           database_url := None;
           database_name := None;
           connection_status := "Not Connected";
           collections := [] |}, unconfigured).
Proof. apply test_database_unconfigured. reflexivity. Defined.

Lemma test_database_never_initial_witness :
  exists r w',
    test_database seeded = (Ok r, w') /\
    database_ r <> "❌ Not Available"%text /\ backend r = "✅ Running"%text.
Proof.
  eexists. eexists. split; [vm_compute; reflexivity |].
  eapply (test_database_never_initial seeded). vm_compute. reflexivity.
Defined.

Lemma listings_are_sublists_witness :
  exists all_ ps fs,
    fst (list_products ascii_only None None None None None seeded) = Ok all_ /\
    fst (list_products ascii_only (Some "home"%text) None None None None seeded) = Ok ps /\
    fst (featured_products ascii_only seeded) = Ok fs /\
    length ps = 2%nat /\ sublist ps all_ /\ sublist fs all_.
Proof.
  eexists. eexists. eexists.
  split; [vm_compute; reflexivity |]. split; [vm_compute; reflexivity |].
  split; [vm_compute; reflexivity |]. split; [reflexivity |].
  destruct (listings_are_sublists ascii_only seeded _ ltac:(vm_compute; reflexivity))
    as [Hl Hf].
  split.
  - apply (Hl (Some "home"%text) None None None None). vm_compute. reflexivity.
  - apply Hf. vm_compute. reflexivity.
Defined.

Lemma seed_products_count_witness :
  exists r d',
    fst (seed_products ascii_only fresh) = Ok r /\
    db (snd (seed_products ascii_only fresh)) = Some d' /\
    count r = length (collection d' "product") /\
    (0 < count r)%nat.
Proof.
  apply (seed_products_count ascii_only fresh fresh_database); reflexivity.
Defined.
